(** * Finalization stage of the FAHE data scripts

    A shallow embedding of [processed_data/502_investment/script/final.py]:
    [finalize_dataframe], [write_csv_only_county_fips_quoted],
    [process_csv_file] and [main], which lists the input directory and
    calls [process_csv_file] on each file, together with the part of Python
    and pandas they call.

    The script is written against pandas objects that live in the Python
    heap and are updated in place ([final_df['county_fips'] = ...]), it logs
    through a process-wide logger and it writes files.  The embedding keeps
    all three: a [world] holds the heap of [DataFrame] objects, the log and
    the file system, and the three functions are programs of a state and
    exception monad [M] over it.

    Python and pandas themselves are not part of the repository.  What the
    script needs of them is modelled here from their documented behaviour
    (pandas 2, where [dtype=str] gives [object] columns of texts and [NaN]);
    the few places where the behaviour is a matter of the installed library
    version (the Unicode digit table behind [\d], the C number parser on
    texts other than short integer literals, [int(str)], the CSV reader) are
    fields of a [Library] record that the script takes as a parameter. *)

From Stdlib Require Import ZArith NArith List String Ascii Bool Lia Decimal DecimalZ.
From stdpp Require Import base numbers list strings gmap.

(** * Python text *)

(** A Python [str] is a sequence of Unicode scalar values; each is held by
    its code point number.  Files are opened with [encoding='utf-8'], which
    maps such sequences to bytes one-to-one, so file contents are kept as
    text. *)
Definition char := N.
Definition str := list char.

(** [py "abc"] is the Python literal ['abc'] (for ASCII literals). *)
Definition py (s : string) : str := N_of_ascii <$> list_ascii_of_string s.

Definition LF : char := 10%N.
Definition DQUOTE : char := 34%N.
Definition DOLLAR : char := 36%N.
Definition PLUS : char := 43%N.
Definition COMMA : char := 44%N.
Definition MINUS : char := 45%N.
Definition SLASH : char := 47%N.

Definition ascii_digit (c : char) : bool := (48 <=? c)%N && (c <=? 57)%N.

(** ASCII lower-casing, as C's [strcasecmp] compares. *)
Definition ascii_lower (c : char) : char :=
  if (65 <=? c)%N && (c <=? 90)%N then (c + 32)%N else c.

(** [sep.join(parts)] *)
Fixpoint join (sep : str) (parts : list str) : str :=
  match parts with
  | [] => []
  | [p] => p
  | p :: ps => p ++ sep ++ join sep ps
  end.

(** [str(z)] for a Python or numpy integer: decimal digits, [-] for a
    negative number. *)
Fixpoint uint_digits (u : Decimal.uint) : str :=
  match u with
  | Nil => []
  | D0 u => 48%N :: uint_digits u
  | D1 u => 49%N :: uint_digits u
  | D2 u => 50%N :: uint_digits u
  | D3 u => 51%N :: uint_digits u
  | D4 u => 52%N :: uint_digits u
  | D5 u => 53%N :: uint_digits u
  | D6 u => 54%N :: uint_digits u
  | D7 u => 55%N :: uint_digits u
  | D8 u => 56%N :: uint_digits u
  | D9 u => 57%N :: uint_digits u
  end.

Definition str_of_int (z : Z) : str :=
  match Z.to_int z with
  | Decimal.Pos u => uint_digits u
  | Decimal.Neg u => MINUS :: uint_digits u
  end.

(** [os.path.basename]: what follows the last [/]. *)
Fixpoint basename_from (acc p : str) : str :=
  match p with
  | [] => acc
  | c :: p' => if (c =? SLASH)%N then basename_from [] p' else basename_from (acc ++ [c]) p'
  end.

Definition basename (p : str) : str := basename_from [] p.

(** ** Short integer literals

    An optional sign followed by one to fifteen ASCII digits.  Such a text
    is an integer below [10^15]: Python's [int] and the C parser of pandas
    agree on it, and a double holds it exactly. *)

Definition digit_value (c : char) : Z := Z.of_N c - 48.

Definition digits_value (ds : str) : Z :=
  fold_left (fun acc c => 10 * acc + digit_value c)%Z ds 0%Z.

Definition unsigned_short (ds : str) : option Z :=
  if forallb ascii_digit ds && (1 <=? length ds) && (length ds <=? 15)
  then Some (digits_value ds) else None.

Definition short_int_literal (s : str) : option Z :=
  match s with
  | c :: ds =>
      if (c =? MINUS)%N then Z.opp <$> unsigned_short ds
      else if (c =? PLUS)%N then unsigned_short ds
      else unsigned_short s
  | [] => None
  end.

(** The C string of a text.  pandas' [floatify] encodes the text in UTF-8
    and hands the bytes to C as a NUL-terminated string ([strlen],
    [strcasecmp]): C sees what precedes the first NUL character, and
    nothing of what follows it.  (In UTF-8 only the character NUL has a
    zero byte.) *)
Fixpoint c_string (s : str) : str :=
  match s with
  | [] => []
  | c :: s' => if (c =? 0)%N then [] else c :: c_string s'
  end.

(** The spellings of infinity that pandas' [floatify] accepts once the
    number parser has rejected a text: the C string of the text is [inf]
    or [infinity], with an optional sign, in any letter case. *)
Definition inf_spelling (s : str) : bool :=
  let t := ascii_lower <$> c_string s in
  bool_decide (t ∈ [py "inf"; py "+inf"; py "-inf";
                    py "infinity"; py "+infinity"; py "-infinity"]).

(** * Exceptions and outcomes *)

Inductive exn :=
| KeyError
| AttributeError
| TypeError
| ValueError
| IntCastingNaNError
| FileNotFoundError
| ParserError
| ReferenceError.

Inductive outcome (A : Type) :=
| Return (a : A)
| Raise (e : exn).

Arguments Return {A} a.
Arguments Raise {A} e.

Definition and_then {A B} (o : outcome A) (k : A -> outcome B) : outcome B :=
  match o with
  | Return a => k a
  | Raise e => Raise e
  end.

(** * pandas values *)

(** The cells of an [object] column as [read_csv(..., dtype=str)] delivers
    them: a text, or the missing value [NaN]. *)
Inductive obj :=
| Str (s : str)
| NaN.

(** A column with its dtype: [object] (texts and missing values) or
    [int64]. *)
Inductive Series :=
| Object (l : list obj)
| Int64 (l : list Z).

Inductive dtype := dtype_object | dtype_int64.

Definition Series_dtype (s : Series) : dtype :=
  match s with Object _ => dtype_object | Int64 _ => dtype_int64 end.

Definition Series_len (s : Series) : nat :=
  match s with Object l => length l | Int64 l => length l end.

(** A [DataFrame]: the length of its index and its columns in order, each
    with its label.  Labels may repeat; that is what [rename] produces when
    it maps a label onto one that is already there. *)
Record DataFrame := {
  index_len : nat;
  data : list (str * Series)
}.

Definition labels (fr : DataFrame) : list str := fst <$> data fr.

(** [pd.DataFrame()] *)
Definition empty_frame : DataFrame := {| index_len := 0; data := [] |}.

(** [df.shape] *)
Definition shape (fr : DataFrame) : nat * nat := (index_len fr, length (data fr)).

(** [df.empty]: some axis has length 0. *)
Definition empty (fr : DataFrame) : bool :=
  (index_len fr =? 0) || (length (data fr) =? 0).

(** [df.dtypes] *)
Definition dtypes (fr : DataFrame) : list (str * dtype) :=
  (fun c => (c.1, Series_dtype c.2)) <$> data fr.

(** [df.rename(columns=mapping)]: a label that is a key of the mapping is
    replaced, every other label stays. *)
Definition rename_label (mapping : list (str * str)) (c : str) : str :=
  match list_find (fun kv => kv.1 = c) mapping with
  | Some (_, kv) => kv.2
  | None => c
  end.

Definition rename (mapping : list (str * str)) (fr : DataFrame) : DataFrame :=
  {| index_len := index_len fr;
     data := (fun c => (rename_label mapping c.1, c.2)) <$> data fr |}.

(** The columns carrying a label, in frame order. *)
Definition columns_named (key : str) (fr : DataFrame) : list (str * Series) :=
  filter (fun c => c.1 = key) (data fr).

(** [df[keys]] for a list of labels: for each key in turn every column
    carrying it; [KeyError] for a key that labels no column. *)
Fixpoint select (keys : list str) (fr : DataFrame) : outcome (list (str * Series)) :=
  match keys with
  | [] => Return []
  | k :: ks =>
      match columns_named k fr with
      | [] => Raise KeyError
      | cs => match select ks fr with
              | Return rest => Return (cs ++ rest)
              | Raise e => Raise e
              end
      end
  end.

Definition getitem_list (fr : DataFrame) (keys : list str) : outcome DataFrame :=
  match select keys fr with
  | Return cs => Return {| index_len := index_len fr; data := cs |}
  | Raise e => Raise e
  end.

(** [df[key]] for one label: the column when the label is unique, a frame
    of all its columns when it repeats, [KeyError] when it is absent. *)
Inductive item :=
| ItemSeries (s : Series)
| ItemFrame (fr : DataFrame).

Definition getitem (fr : DataFrame) (key : str) : outcome item :=
  match columns_named key fr with
  | [] => Raise KeyError
  | [c] => Return (ItemSeries c.2)
  | cs => Return (ItemFrame {| index_len := index_len fr; data := cs |})
  end.

(** [df[key] = s]: the column labelled [key] is replaced (every one, should
    the label repeat); a new label is appended as the last column. *)
Definition setitem (fr : DataFrame) (key : str) (s : Series) : DataFrame :=
  {| index_len := index_len fr;
     data := if bool_decide (key ∈ labels fr)
             then (fun c => if bool_decide (c.1 = key) then (c.1, s) else c) <$> data fr
             else data fr ++ [(key, s)] |}.

(** [.astype(str)]: a text stays, a missing value becomes the text [nan],
    an integer its decimal form. *)
Definition obj_text (o : obj) : str :=
  match o with Str s => s | NaN => py "nan" end.

Definition Series_astype_str (s : Series) : Series :=
  match s with
  | Object l => Object ((fun o => Str (obj_text o)) <$> l)
  | Int64 l => Object ((fun z => Str (str_of_int z)) <$> l)
  end.

Definition astype_str (x : item) : item :=
  match x with
  | ItemSeries s => ItemSeries (Series_astype_str s)
  | ItemFrame fr =>
      ItemFrame {| index_len := index_len fr;
                   data := (fun c => (c.1, Series_astype_str c.2)) <$> data fr |}
  end.

(** The cells of a column as [.astype(str)] shows them. *)
Definition Series_texts (s : Series) : list str :=
  match s with
  | Object l => obj_text <$> l
  | Int64 l => str_of_int <$> l
  end.

(** The [.str] accessor exists on an [object] column only; on a frame and
    on an integer column Python raises [AttributeError]. *)
Definition str_accessor (x : item) : outcome (list obj) :=
  match x with
  | ItemSeries (Object l) => Return l
  | _ => Raise AttributeError
  end.

(** [.str.replace(c, '', regex=False)] for a one-character [c]. *)
Definition remove_char (c : char) (s : str) : str :=
  filter (fun x => x ≠ c) s.

Definition obj_replace (c : char) (o : obj) : obj :=
  match o with Str s => Str (remove_char c s) | NaN => NaN end.

Definition str_replace (c : char) (x : item) : outcome Series :=
  match str_accessor x with
  | Return l => Return (Object (obj_replace c <$> l))
  | Raise e => Raise e
  end.

(** The text left of a dollar amount once [,] and [$] are removed. *)
Definition strip (t : str) : str := remove_char DOLLAR (remove_char COMMA t).

(** [.fillna(v)] on an [object] column. *)
Definition Series_fillna (v : str) (s : Series) : Series :=
  match s with
  | Object l => Object ((fun o => match o with NaN => Str v | _ => o end) <$> l)
  | Int64 l => Int64 l
  end.

(** ** Row tuples *)

(** The Python scalars a row tuple holds. *)
Inductive value :=
| VStr (s : str)
| VNaN
| VInt (z : Z).

(** The cell of a column at a row.  Every column of a frame covers the
    whole index; a position past the end of a shorter list reads as
    missing. *)
Definition Series_at (s : Series) (i : nat) : value :=
  match s with
  | Object l => match l !! i with Some (Str t) => VStr t | _ => VNaN end
  | Int64 l => match l !! i with Some z => VInt z | None => VNaN end
  end.

(** [df.itertuples(index=False, name=None)] *)
Definition itertuples (fr : DataFrame) : list (list value) :=
  (fun i => (fun c => Series_at c.2 i) <$> data fr) <$> seq 0 (index_len fr).

(** [pd.isna(v)] *)
Definition pd_isna (v : value) : bool :=
  match v with VNaN => true | _ => false end.

(** [str(v)], which is also what an f-string field [{v}] inserts. *)
Definition py_str (v : value) : str :=
  match v with
  | VStr s => s
  | VNaN => py "nan"
  | VInt z => str_of_int z
  end.

(** * Numbers as [pd.to_numeric] sees them *)

(** A double is observed by the script in one way only: through
    [.astype('int64')], which refuses a non-finite value and casts a finite
    one.  [Finite k] is a finite double whose cast is [k] (its truncation
    toward zero whenever that fits 64 bits). *)
Inductive double :=
| Inf
| Finite (as_int64 : Z).

(** What the converter makes of one cell: nothing ([NaN]), an integer
    literal (the Python integer, and the double the parser read), or a
    floating literal. *)
Inductive numeric :=
| Null
| IntLit (z : Z) (d : double)
| FloatLit (d : double).

(** The numeric column [pd.to_numeric] returns: [int64], [uint64] or
    [float64] (where [None] is [NaN]). *)
Inductive NumSeries :=
| I64 (l : list Z)
| U64 (l : list Z)
| F64 (l : list (option double)).

Definition INT64_MIN : Z := - 2 ^ 63.
Definition INT64_MAX : Z := 2 ^ 63 - 1.
Definition UINT64_MAX : Z := 2 ^ 64 - 1.

(** The flags [maybe_convert_numeric] collects while it scans the column. *)
Definition saw_uint (n : numeric) : bool :=
  match n with IntLit z _ => (INT64_MAX <? z)%Z && (z <=? UINT64_MAX)%Z | _ => false end.

Definition saw_sint (n : numeric) : bool :=
  match n with IntLit z _ => (INT64_MIN <=? z)%Z && (z <? 0)%Z | _ => false end.

Definition saw_float (n : numeric) : bool :=
  match n with
  | Null | FloatLit _ => true
  | IntLit z _ => (z <? INT64_MIN)%Z || (UINT64_MAX <? z)%Z
  end.

Definition as_double (n : numeric) : option double :=
  match n with
  | Null => None
  | IntLit _ d => Some d
  | FloatLit d => Some d
  end.

Definition as_int (n : numeric) : Z :=
  match n with IntLit z _ => z | _ => 0%Z end.

(** The result array: doubles as soon as one cell is a null, a floating
    literal or an integer no 64-bit type holds, or when negative integers
    meet integers above [INT64_MAX]; otherwise [uint64] when some integer
    is above [INT64_MAX], else [int64]. *)
Definition collect (ns : list numeric) : NumSeries :=
  if existsb saw_float ns || (existsb saw_uint ns && existsb saw_sint ns)
  then F64 (as_double <$> ns)
  else if existsb saw_uint ns then U64 (as_int <$> ns)
  else I64 (as_int <$> ns).

(** [.fillna(0)] *)
Definition fillna_zero (s : NumSeries) : NumSeries :=
  match s with
  | F64 l => F64 ((fun d => match d with None => Some (Finite 0) | _ => d end) <$> l)
  | _ => s
  end.

(** [.astype('int64')]: an integer array is reinterpreted (a [uint64]
    above [INT64_MAX] wraps around); a double array is refused with
    [IntCastingNaNError] when it holds a non-finite value and cast
    otherwise. *)
Definition wrap_int64 (z : Z) : Z :=
  ((z - INT64_MIN) mod 2 ^ 64 + INT64_MIN)%Z.

Definition cast_double (d : option double) : option Z :=
  match d with
  | Some (Finite k) => Some k
  | _ => None
  end.

Definition astype_int64 (s : NumSeries) : outcome Series :=
  match s with
  | I64 l => Return (Int64 l)
  | U64 l => Return (Int64 (wrap_int64 <$> l))
  | F64 l => match mapM cast_double l with
             | Some ks => Return (Int64 ks)
             | None => Raise IntCastingNaNError
             end
  end.

(** A cell reads as a finite number, or as none. *)
Definition reads_finite (n : numeric) : Prop := as_double n <> Some Inf.

(** What [int64_coercion] makes of one cell: 0 of a null, and of an
    integer literal that a double holds exactly, the integer. *)
Definition cell_int64 (n : numeric) (k : Z) : Prop :=
  match n with
  | Null => k = 0%Z
  | IntLit z (Finite z') => z' = z -> (INT64_MIN <= z <= INT64_MAX)%Z -> k = z
  | _ => True
  end.

(** The integer of a text cell, where the model fixes it: the value of a
    short integer literal, and 0 for the empty text and for a text without
    digits whose C string does not spell infinity. *)
Definition text_int64 (t : str) (k : Z) : Prop :=
  (forall z, short_int_literal t = Some z -> k = z)
  /\ (existsb ascii_digit t = false -> inf_spelling t = false -> k = 0%Z).

(** * The world: heap, log and files *)

Definition loc := nat.

Inductive level := INFO | ERROR.

(** The messages of the script, each with the values it interpolates. *)
Inductive message :=
| Finalizing (filename : str)
| OriginalShape (sh : nat * nat)
| OriginalColumns (cs : list str)
| ColumnsAfterRenaming (cs : list str)
| MissingRequiredColumns (filename : str) (missing_columns : list str)
| DtypesAfterCoercion (ds : list (str * dtype))
| Processing (input_path : str)
| Loaded (rows columns : nat) (input_path : str)
| FailedToFinalize (input_path : str)
| Saved (output_path : str)
| FinalizedRecords (n : nat)
| ErrorProcessing (input_path : str) (e : exn).

Record world := {
  heap : list DataFrame;
  log : list (level * message);
  files : gmap str str
}.

(** Programs: a state transformer that returns or raises. *)
Definition M (A : Type) : Type := world -> outcome A * world.

Definition ret {A} (a : A) : M A := fun w => (Return a, w).

Definition raise {A} (e : exn) : M A := fun w => (Raise e, w).

Definition bind {A B} (m : M A) (k : A -> M B) : M B :=
  fun w => match m w with
           | (Return a, w') => k a w'
           | (Raise e, w') => (Raise e, w')
           end.

Notation "x <- m ;; k" := (bind m (fun x => k))
  (at level 100, m at next level, k at level 200, right associativity).
Notation "m ;;; k" := (bind m (fun _ => k))
  (at level 100, k at level 200, right associativity).

(** [try: body except Exception as e: handler(e)] *)
Definition try_except {A} (body : M A) (handler : exn -> M A) : M A :=
  fun w => match body w with
           | (Return a, w') => (Return a, w')
           | (Raise e, w') => handler e w'
           end.

Definition lift {A} (o : outcome A) : M A := fun w => (o, w).

(** [for x in xs: body(x)] *)
Fixpoint for_each {A} (xs : list A) (body : A -> M unit) : M unit :=
  match xs with
  | [] => ret tt
  | x :: xs' => body x ;;; for_each xs' body
  end.

(** Heap objects.  A reference always names a live object; [ReferenceError]
    marks the lookups Python cannot perform. *)
Definition deref (l : loc) : M DataFrame :=
  fun w => match heap w !! l with
           | Some fr => (Return fr, w)
           | None => (Raise ReferenceError, w)
           end.

Definition alloc (fr : DataFrame) : M loc :=
  fun w => (Return (length (heap w)),
            {| heap := heap w ++ [fr]; log := log w; files := files w |}).

Definition store (l : loc) (fr : DataFrame) : M unit :=
  fun w => (Return tt,
            {| heap := <[l := fr]> (heap w); log := log w; files := files w |}).

(** [logger.info] and [logger.error] *)
Definition logger (lv : level) (msg : message) : M unit :=
  fun w => (Return tt,
            {| heap := heap w; log := log w ++ [(lv, msg)]; files := files w |}).

Definition logger_info := logger INFO.
Definition logger_error := logger ERROR.

(** Files.  [open(path, 'w')] creates or truncates the file; [f.write]
    appends to it.  The output directory exists ([main] creates it), and
    the operating system refusing a write is outside the model. *)
Definition open_w (path : str) : M str :=
  fun w => (Return path,
            {| heap := heap w; log := log w; files := <[path := []]> (files w) |}).

Definition f_write (f : str) (text : str) : M unit :=
  fun w => (Return tt,
            {| heap := heap w; log := log w;
               files := <[f := default [] (files w !! f) ++ text]> (files w) |}).

(** The files after a run that left [text] in the output file; [None]
    when the run did not open it. *)
Definition written (output_path : str) (text : option str) (fs : gmap str str) : gmap str str :=
  match text with
  | Some t => <[output_path := t]> fs
  | None => fs
  end.

(** pandas operations on heap objects.  [copy], [rename] and [df[keys]]
    return a new object; [df[key] = s] updates the object in place. *)
Definition df_copy (df : loc) : M loc :=
  fr <- deref df ;; alloc fr.

Definition df_rename (df : loc) (mapping : list (str * str)) : M loc :=
  fr <- deref df ;; alloc (rename mapping fr).

Definition df_columns (df : loc) : M (list str) :=
  fr <- deref df ;; ret (labels fr).

Definition df_shape (df : loc) : M (nat * nat) :=
  fr <- deref df ;; ret (shape fr).

Definition df_len (df : loc) : M nat :=
  fr <- deref df ;; ret (index_len fr).

Definition df_empty (df : loc) : M bool :=
  fr <- deref df ;; ret (empty fr).

Definition df_dtypes (df : loc) : M (list (str * dtype)) :=
  fr <- deref df ;; ret (dtypes fr).

Definition df_getitem_list (df : loc) (keys : list str) : M loc :=
  fr <- deref df ;; sel <- lift (getitem_list fr keys) ;; alloc sel.

Definition df_getitem (df : loc) (key : str) : M item :=
  fr <- deref df ;; lift (getitem fr key).

Definition df_setitem (df : loc) (key : str) (s : Series) : M unit :=
  fr <- deref df ;; store df (setitem fr key s).

Definition df_itertuples (df : loc) : M (list (list value)) :=
  fr <- deref df ;; ret (itertuples fr).

Definition pd_DataFrame : M loc := alloc empty_frame.

(** * Finalized record sets *)

(** A frame of exactly the six required columns, in the fixed order. *)
Definition six_columns (n : nat) (year county state_name county_fips dollars num : Series)
  : DataFrame :=
  {| index_len := n;
     data := [ (py "year", year); (py "county", county); (py "state_name", state_name);
               (py "county_fips", county_fips); (py "502_investment_dollars", dollars);
               (py "number_of_502_investment", num) ] |}.

(** A finalized record (section 3 of the specification): the year, county
    and state as read, which may be missing, the FIPS digits, and the two
    integers. *)
Record FinalizedRecord := {
  rec_year : obj;
  rec_county : obj;
  rec_state_name : obj;
  rec_county_fips : obj;
  rec_dollars : Z;
  rec_count : Z
}.

(** The frame that holds a finalized record set. *)
Definition frame_of_records (rs : list FinalizedRecord) : DataFrame :=
  six_columns (length rs)
    (Object (rec_year <$> rs)) (Object (rec_county <$> rs))
    (Object (rec_state_name <$> rs)) (Object (rec_county_fips <$> rs))
    (Int64 (rec_dollars <$> rs)) (Int64 (rec_count <$> rs)).

(** The output format as the specification words it (section 4.2). *)
Definition csv_header : str :=
  py "year,county,state_name,county_fips,502_investment_dollars,number_of_502_investment"
  ++ [LF].

(** A text field; a missing value is the empty text. *)
Definition csv_field (o : obj) : str :=
  match o with Str s => s | NaN => [] end.

(** The year field, which the writer does not guard. *)
Definition csv_year (o : obj) : str :=
  match o with Str s => s | NaN => py "nan" end.

Definition csv_line (r : FinalizedRecord) : str :=
  csv_year (rec_year r) ++ [COMMA]
  ++ csv_field (rec_county r) ++ [COMMA]
  ++ csv_field (rec_state_name r) ++ [COMMA]
  ++ [DQUOTE] ++ csv_field (rec_county_fips r) ++ [DQUOTE] ++ [COMMA]
  ++ str_of_int (rec_dollars r) ++ [COMMA]
  ++ str_of_int (rec_count r) ++ [LF].

Definition value_of_obj (o : obj) : value :=
  match o with Str s => VStr s | NaN => VNaN end.

Definition row_of_record (r : FinalizedRecord) : list value :=
  [ value_of_obj (rec_year r); value_of_obj (rec_county r);
    value_of_obj (rec_state_name r); value_of_obj (rec_county_fips r);
    VInt (rec_dollars r); VInt (rec_count r) ].

(** * The library boundary *)

Record Library := {
  (** [\d] of [re] beyond ASCII: the decimal digits (category Nd) of the
      interpreter's Unicode database. *)
  unicode_decimal : char -> bool;
  (** pandas' [floatify] followed by [int] on a text that holds an ASCII
      digit and is not a short integer literal (long integers, decimals,
      exponents, digits followed by other characters). *)
  floatify : str -> numeric;
  (** Python's [int(s)] for a text; [None] is [ValueError]. *)
  int_of_str : str -> option Z;
  (** [pd.read_csv(path, encoding='utf-8', dtype=str)] on the text of a
      file; [None] is any of the reader's exceptions. *)
  read_csv : str -> option DataFrame
}.

(** * Example data

    Frames and files for the concrete runs, and a library instance for
    them.  The instance answers for the texts of the examples only: its
    reader knows the example files, its digit table has the ASCII and the
    Arabic-Indic digits, and its number parser reads nothing beyond the
    short integer literals.  The theorems do not depend on it; they hold
    for every [Library]. *)

(** Two rows in the shape the filter stage hands over. *)
Definition filtered_frame (dollars num : list obj) : DataFrame :=
  {| index_len := 2;
     data := [ (py "fiscal_year", Object [Str (py "2020"); Str (py "2021")]);
               (py "state_name", Object [Str (py "Georgia"); Str (py "Alabama")]);
               (py "county", Object [Str (py "Fulton"); Str (py "Bibb")]);
               (py "zip_code", Object [Str (py "30301"); NaN]);
               (py "county_fips", Object [Str (py "13121"); Str (py "1007.0")]);
               (py "funding_code", Object [Str (py "502"); Str (py "502")]);
               (py "program_area", Object [Str (py "SFH"); Str (py "SFH")]);
               (py "investment_dollars", Object dollars);
               (py "number_of_investments", Object num) ] |}.

Definition good_csv : str :=
  py "fiscal_year,state_name,county,zip_code,county_fips,funding_code,program_area,investment_dollars,number_of_investments"
  ++ [LF] ++ py "2020,Georgia,Fulton,30301,13121,502,SFH," ++ [DQUOTE] ++ py "$303,030"
  ++ [DQUOTE] ++ py ",3"
  ++ [LF] ++ py "2021,Alabama,Bibb,,1007.0,502,SFH,unknown,twelve" ++ [LF].

Definition good_frame : DataFrame :=
  filtered_frame [Str (py "$303,030"); Str (py "unknown")] [Str (py "3"); Str (py "twelve")].

(** The same columns without [county_fips]. *)
Definition no_fips_csv : str :=
  py "fiscal_year,state_name,county,investment_dollars,number_of_investments"
  ++ [LF] ++ py "2020,Georgia,Fulton,500000,3" ++ [LF].

Definition no_fips_frame : DataFrame :=
  {| index_len := 1;
     data := [ (py "fiscal_year", Object [Str (py "2020")]);
               (py "state_name", Object [Str (py "Georgia")]);
               (py "county", Object [Str (py "Fulton")]);
               (py "investment_dollars", Object [Str (py "500000")]);
               (py "number_of_investments", Object [Str (py "3")]) ] |}.

(** A header and no rows. *)
Definition no_rows_csv : str :=
  py "year,county,state_name,county_fips,502_investment_dollars,number_of_502_investment"
  ++ [LF].

Definition no_rows_frame : DataFrame :=
  six_columns 0 (Object []) (Object []) (Object []) (Object []) (Object []) (Object []).

(** A file that has [fiscal_year] next to [year]. *)
Definition year_twice_csv : str :=
  py "fiscal_year,year,county,state_name,county_fips,investment_dollars,number_of_investments"
  ++ [LF] ++ py "2020,2020,Fulton,Georgia,13121,500000,3" ++ [LF].

Definition year_twice_frame : DataFrame :=
  {| index_len := 1;
     data := [ (py "fiscal_year", Object [Str (py "2020")]);
               (py "year", Object [Str (py "2020")]);
               (py "county", Object [Str (py "Fulton")]);
               (py "state_name", Object [Str (py "Georgia")]);
               (py "county_fips", Object [Str (py "13121")]);
               (py "investment_dollars", Object [Str (py "500000")]);
               (py "number_of_investments", Object [Str (py "3")]) ] |}.

(** A file the reader refuses: its third line has three fields under a
    header of two ([ParserError]: expected 2 fields in line 3, saw 3). *)
Definition ragged_csv : str :=
  py "county,state_name" ++ [LF] ++ py "Fulton,Georgia" ++ [LF]
  ++ py "Bibb,Alabama,extra" ++ [LF].

Definition example_library : Library :=
  {| unicode_decimal := fun c => (1632 <=? c)%N && (c <=? 1641)%N;
     floatify := fun _ => Null;
     int_of_str := short_int_literal;
     read_csv := fun text =>
       if bool_decide (text = good_csv) then Some good_frame
       else if bool_decide (text = no_fips_csv) then Some no_fips_frame
       else if bool_decide (text = no_rows_csv) then Some no_rows_frame
       else if bool_decide (text = year_twice_csv) then Some year_twice_frame
       else if bool_decide (text = ragged_csv) then None
       else None |}.

Definition fulton_record : FinalizedRecord :=
  {| rec_year := Str (py "2020"); rec_county := Str (py "Fulton");
     rec_state_name := Str (py "Georgia"); rec_county_fips := Str (py "13121");
     rec_dollars := 500000; rec_count := 3 |}.

(** A record with nothing but the two integers. *)
Definition blank_record : FinalizedRecord :=
  {| rec_year := NaN; rec_county := NaN; rec_state_name := NaN; rec_county_fips := NaN;
     rec_dollars := 0; rec_count := 0 |}.

Definition world_of (objects : list DataFrame) (fs : gmap str str) : world :=
  {| heap := objects; log := []; files := fs |}.

Definition no_fips_world : world :=
  world_of [] {[ py "appalachian_data/ga.csv" := no_fips_csv ]}.

Definition no_rows_world : world :=
  world_of [] {[ py "appalachian_data/al.csv" := no_rows_csv ]}.

Definition year_twice_world : world :=
  world_of [] {[ py "appalachian_data/tn.csv" := year_twice_csv ]}.

Definition good_world : world :=
  world_of [] {[ py "appalachian_data/ga.csv" := good_csv ]}.

(** A world whose heap, log and files already hold something. *)
Definition busy_world : world :=
  {| heap := [no_fips_frame; year_twice_frame];
     log := [(INFO, Processing (py "appalachian_data/al.csv"))];
     files := {[ py "appalachian_data/ga.csv" := good_csv;
                 py "appalachian_data/al.csv" := no_rows_csv ]} |}.

(** * The batch driver's data *)

(** The lines [main] itself logs. *)
Inductive driver_message :=
| CreatedDirectory (d : str)
| NoCsvFilesFound
| FoundCsvFiles (n : nat)
| Rule
| SummaryTitle
| TotalFilesProcessed (n : nat)
| SuccessfullyProcessed (n : nat)
| FailedToProcess (n : nat)
| TotalFinalizedRecords (n : nat)
| FilesSavedTo (d : str).

(** A run of the whole script: the world, and the lines of [main].  The
    logger is one stream, but [main] logs only before and after its loop,
    so keeping its lines apart from those [process_csv_file] leaves in the
    world loses nothing of their order. *)
Record batch := {
  batch_world : world;
  batch_log : list (level * driver_message)
}.

Definition batch_logger (lv : level) (msg : driver_message) (b : batch) : batch :=
  {| batch_world := batch_world b; batch_log := batch_log b ++ [(lv, msg)] |}.

(** The three counters of the loop. *)
Record counters := {
  successful_files : nat;
  failed_files : nat;
  total_finalized_records : nat
}.

(** [dir / name] on a POSIX path. *)
Definition path_join (dir name : str) : str := dir ++ [SLASH] ++ name.

(** ** More example files *)

(** A file that has [investment_dollars] next to [502_investment_dollars]. *)
Definition dollars_twice_csv : str :=
  py "year,county,state_name,county_fips,investment_dollars,502_investment_dollars,number_of_502_investment"
  ++ [LF] ++ py "2020,Fulton,Georgia,13121,500000,500000,3" ++ [LF].

Definition dollars_twice_frame : DataFrame :=
  {| index_len := 1;
     data := [ (py "year", Object [Str (py "2020")]);
               (py "county", Object [Str (py "Fulton")]);
               (py "state_name", Object [Str (py "Georgia")]);
               (py "county_fips", Object [Str (py "13121")]);
               (py "investment_dollars", Object [Str (py "500000")]);
               (py "502_investment_dollars", Object [Str (py "500000")]);
               (py "number_of_502_investment", Object [Str (py "3")]) ] |}.

(** The example library with a reader that knows this file too. *)
Definition dollars_twice_library : Library :=
  {| unicode_decimal := unicode_decimal example_library;
     floatify := floatify example_library;
     int_of_str := int_of_str example_library;
     read_csv := fun text =>
       if bool_decide (text = dollars_twice_csv) then Some dollars_twice_frame
       else read_csv example_library text |}.

Definition dollars_twice_world : world :=
  world_of [] {[ py "appalachian_data/nc.csv" := dollars_twice_csv ]}.

(** Two records that differ in where the county name ends. *)
Definition comma_in_county : FinalizedRecord :=
  {| rec_year := Str (py "2020"); rec_county := Str (py "Fulton" ++ [COMMA] ++ py "North");
     rec_state_name := Str (py "Georgia"); rec_county_fips := Str (py "13121");
     rec_dollars := 500000; rec_count := 3 |}.

Definition comma_in_state : FinalizedRecord :=
  {| rec_year := Str (py "2020"); rec_county := Str (py "Fulton");
     rec_state_name := Str (py "North" ++ [COMMA] ++ py "Georgia");
     rec_county_fips := Str (py "13121");
     rec_dollars := 500000; rec_count := 3 |}.

Definition comma_world : world :=
  world_of [ frame_of_records ([] ++ comma_in_county :: []);
             frame_of_records ([] ++ comma_in_state :: []) ] ∅.

(** ** Example batches *)

(** [Path(dir).glob("*.csv")] on the file model: the entries of [dir] are
    the keys [dir/name] with no further [/] in [name]. *)
Fixpoint strip_prefix (pre s : str) : option str :=
  match pre, s with
  | [], _ => Some s
  | c :: pre', d :: s' => if (c =? d)%N then strip_prefix pre' s' else None
  | _ :: _, [] => None
  end.

Definition csv_entry (dir p : str) : option str :=
  match strip_prefix (dir ++ [SLASH]) p with
  | Some name =>
      if forallb (fun c => negb (c =? SLASH)%N) name
         && bool_decide (py ".csv" `suffix_of` name)
      then Some name else None
  | None => None
  end.

Definition example_glob (fs : gmap str str) (dir : str) : list str :=
  omap (csv_entry dir) (map_to_list fs).*1.

(** An input directory with three CSV files, one of which the reader
    refuses, and a file that is no CSV. *)
Definition batch_files : gmap str str :=
  {[ py "appalachian_data/ga.csv" := good_csv;
     py "appalachian_data/tn.csv" := no_fips_csv;
     py "appalachian_data/ky.csv" := ragged_csv;
     py "appalachian_data/notes.txt" := py "remember the fips codes" ]}.

Definition batch_start : batch :=
  {| batch_world := world_of [] batch_files; batch_log := [] |}.

Definition idle_start : batch :=
  {| batch_world := world_of [] {[ py "appalachian_data/notes.txt" := py "nothing here" ]};
     batch_log := [] |}.

(** * The script *)

Section Finalizer.

Variable lib : Library.

(** ** The regular expression [(\d+)] *)

Definition is_digit (c : char) : bool :=
  if (c <? 128)%N then ascii_digit c else unicode_decimal lib c.

(** The longest prefix of digits. *)
Fixpoint digit_prefix (s : str) : str :=
  match s with
  | c :: s' => if is_digit c then c :: digit_prefix s' else []
  | [] => []
  end.

(** [re.search(r'(\d+)', s)]: the leftmost match, taken greedily; [None]
    when [s] holds no digit. *)
Fixpoint search_digits (s : str) : option str :=
  match s with
  | [] => None
  | c :: s' => if is_digit c then Some (c :: digit_prefix s') else search_digits s'
  end.

(** [.str.extract(r'(\d+)')[0]]: group 1 of the first match, [NaN] where
    there is none. *)
Definition obj_extract (o : obj) : obj :=
  match o with
  | Str s => match search_digits s with Some r => Str r | None => NaN end
  | NaN => NaN
  end.

Definition str_extract_digits (x : item) : outcome Series :=
  match str_accessor x with
  | Return l => Return (Object (obj_extract <$> l))
  | Raise e => Raise e
  end.

(** ** [pd.to_numeric(..., errors='coerce')] and [pd.read_csv] *)

(** One cell.  An empty text and a missing value are nulls; a short
    integer literal is that integer; a text without any ASCII digit is
    infinity when its C string spells it and a null otherwise; every other
    text is the library's to read. *)
Definition convert_text (s : str) : numeric :=
  match s with
  | [] => Null
  | _ =>
      match short_int_literal s with
      | Some z => IntLit z (Finite z)
      | None =>
          if existsb ascii_digit s then floatify lib s
          else if inf_spelling s then FloatLit Inf
          else Null
      end
  end.

Definition convert_obj (o : obj) : numeric :=
  match o with
  | Str s => convert_text s
  | NaN => Null
  end.

Definition to_numeric (x : item) : outcome NumSeries :=
  match x with
  | ItemSeries (Object l) => Return (collect (convert_obj <$> l))
  | ItemSeries (Int64 l) => Return (I64 l)
  | ItemFrame _ => Raise TypeError
  end.

(** [pd.read_csv(input_path, encoding='utf-8', dtype=str)] *)
Definition pd_read_csv (input_path : str) : M loc :=
  fun w => match files w !! input_path with
           | None => (Raise FileNotFoundError, w)
           | Some text => match read_csv lib text with
                          | None => (Raise ParserError, w)
                          | Some fr => alloc fr w
                          end
           end.

(** ** [finalize_dataframe] *)

Definition column_mapping : list (str * str) :=
  [ (py "fiscal_year", py "year");
    (py "investment_dollars", py "502_investment_dollars");
    (py "number_of_investments", py "number_of_502_investment") ].

Definition required_columns : list str :=
  [ py "year"; py "county"; py "state_name"; py "county_fips";
    py "502_investment_dollars"; py "number_of_502_investment" ].

Definition finalize_dataframe (df : loc) (filename : str) : M loc :=
  logger_info (Finalizing filename) ;;;
  sh <- df_shape df ;;
  logger_info (OriginalShape sh) ;;;
  cs <- df_columns df ;;
  logger_info (OriginalColumns cs) ;;;
  final_df <- df_copy df ;;
  (* Rename columns *)
  final_df <- df_rename final_df column_mapping ;;
  cs <- df_columns final_df ;;
  logger_info (ColumnsAfterRenaming cs) ;;;
  (* Required columns *)
  let missing_columns := filter (fun c => c ∉ cs) required_columns in
  if negb (bool_decide (missing_columns = [])) then
    logger_error (MissingRequiredColumns filename missing_columns) ;;;
    pd_DataFrame
  else
    (* Keep only required columns *)
    sel <- df_getitem_list final_df required_columns ;;
    final_df <- df_copy sel ;;
    (* county_fips -> string digits *)
    x <- df_getitem final_df (py "county_fips") ;;
    x <- lift (str_extract_digits (astype_str x)) ;;
    df_setitem final_df (py "county_fips") (Series_fillna [] x) ;;;
    (* 502_investment_dollars -> int (remove punctuation first) *)
    x <- df_getitem final_df (py "502_investment_dollars") ;;
    x <- lift (str_replace COMMA (astype_str x)) ;;
    x <- lift (str_replace DOLLAR (ItemSeries x)) ;;
    df_setitem final_df (py "502_investment_dollars") x ;;;
    x <- df_getitem final_df (py "502_investment_dollars") ;;
    x <- lift (to_numeric x) ;;
    x <- lift (astype_int64 (fillna_zero x)) ;;
    df_setitem final_df (py "502_investment_dollars") x ;;;
    (* number_of_502_investment -> int *)
    x <- df_getitem final_df (py "number_of_502_investment") ;;
    x <- lift (to_numeric x) ;;
    x <- lift (astype_int64 (fillna_zero x)) ;;
    df_setitem final_df (py "number_of_502_investment") x ;;;
    ds <- df_dtypes final_df ;;
    logger_info (DtypesAfterCoercion ds) ;;;
    ret final_df.

(** ** [write_csv_only_county_fips_quoted] *)

(** [int(v)] *)
Definition py_int (v : value) : outcome Z :=
  match v with
  | VInt z => Return z
  | VNaN => Raise ValueError
  | VStr s => match int_of_str lib s with
              | Some z => Return z
              | None => Raise ValueError
              end
  end.

Definition cols : list str :=
  [ py "year"; py "county"; py "state_name"; py "county_fips";
    py "502_investment_dollars"; py "number_of_502_investment" ].

Definition write_csv_only_county_fips_quoted (df : loc) (output_path : str) : M unit :=
  f <- open_w output_path ;;
  (* header (no quotes) *)
  f_write f (join [COMMA] cols ++ [LF]) ;;;
  (* rows *)
  sel <- df_getitem_list df cols ;;
  rows <- df_itertuples sel ;;
  for_each rows (fun row =>
    match row with
    | [year; county; state_name; county_fips; dollars; n_loans] =>
        (* ensure safe strings *)
        let county := if pd_isna county then [] else py_str county in
        let state_name := if pd_isna state_name then [] else py_str state_name in
        let county_fips := if pd_isna county_fips then [] else py_str county_fips in
        dollars <- lift (py_int dollars) ;;
        n_loans <- lift (py_int n_loans) ;;
        let line :=
          py_str year ++ [COMMA] ++ county ++ [COMMA] ++ state_name ++ [COMMA]
          ++ [DQUOTE] ++ county_fips ++ [DQUOTE] ++ [COMMA]
          ++ str_of_int dollars ++ [COMMA] ++ str_of_int n_loans ++ [LF] in
        f_write f line
    | _ => raise ValueError  (* the tuple does not unpack into six names *)
    end).

(** ** [process_csv_file] *)

Definition process_csv_file (input_path output_path : str) : M (bool * nat) :=
  try_except
    (logger_info (Processing input_path) ;;;
     (* Read as strings for full control over types *)
     df <- pd_read_csv input_path ;;
     sh <- df_shape df ;;
     logger_info (Loaded sh.1 sh.2 input_path) ;;;
     finalized_df <- finalize_dataframe df (basename input_path) ;;
     is_empty <- df_empty finalized_df ;;
     if is_empty then
       logger_error (FailedToFinalize input_path) ;;;
       ret (false, 0)
     else
       (* Custom writer to satisfy quoting rules *)
       write_csv_only_county_fips_quoted finalized_df output_path ;;;
       logger_info (Saved output_path) ;;;
       n <- df_len finalized_df ;;
       logger_info (FinalizedRecords n) ;;;
       n <- df_len finalized_df ;;
       ret (true, n))
    (fun e =>
       logger_error (ErrorProcessing input_path e) ;;;
       ret (false, 0)).

(** ** The script as functions of the frame

    What the three programs compute, written over frame values instead of
    heap objects.  The run lemmas below prove that the programs compute
    exactly this; the theorems then speak about the programs. *)

(** The right-hand side of the [county_fips] assignment (lines 58-63). *)
Definition county_fips_coercion (x : item) : outcome Series :=
  and_then (str_extract_digits (astype_str x)) (fun s => Return (Series_fillna [] s)).

(** The right-hand side of the first [502_investment_dollars] assignment
    (lines 66-70). *)
Definition strip_punctuation (x : item) : outcome Series :=
  and_then (str_replace COMMA (astype_str x)) (fun s => str_replace DOLLAR (ItemSeries s)).

(** [pd.to_numeric(x, errors='coerce').fillna(0).astype('int64')] (lines
    71-73 and 76-78). *)
Definition int64_coercion (x : item) : outcome Series :=
  and_then (to_numeric x) (fun n => astype_int64 (fillna_zero n)).

(** All of lines 66-73 on the column read at line 67. *)
Definition dollars_coercion (x : item) : outcome Series :=
  and_then (strip_punctuation x) (fun s => int64_coercion (ItemSeries s)).

Definition coerce_frame (fr : DataFrame) : outcome DataFrame :=
  and_then (getitem fr (py "county_fips")) (fun x =>
  and_then (county_fips_coercion x) (fun s =>
  let fr := setitem fr (py "county_fips") s in
  and_then (getitem fr (py "502_investment_dollars")) (fun x =>
  and_then (strip_punctuation x) (fun s =>
  let fr := setitem fr (py "502_investment_dollars") s in
  and_then (getitem fr (py "502_investment_dollars")) (fun x =>
  and_then (int64_coercion x) (fun s =>
  let fr := setitem fr (py "502_investment_dollars") s in
  and_then (getitem fr (py "number_of_502_investment")) (fun x =>
  and_then (int64_coercion x) (fun s =>
  Return (setitem fr (py "number_of_502_investment") s))))))))).

Definition missing_columns (fr : DataFrame) : list str :=
  filter (fun c => c ∉ labels (rename column_mapping fr)) required_columns.

Definition finalize_frame (fr : DataFrame) : outcome DataFrame :=
  if bool_decide (missing_columns fr = []) then
    and_then (getitem_list (rename column_mapping fr) required_columns) coerce_frame
  else Return empty_frame.

Definition header : str := join [COMMA] cols ++ [LF].

(** The line of one row tuple, or the exception its formatting raises. *)
Definition row_line (row : list value) : outcome str :=
  match row with
  | [year; county; state_name; county_fips; dollars; n_loans] =>
      and_then (py_int dollars) (fun d =>
      and_then (py_int n_loans) (fun n =>
        Return (py_str year ++ [COMMA]
                ++ (if pd_isna county then [] else py_str county) ++ [COMMA]
                ++ (if pd_isna state_name then [] else py_str state_name) ++ [COMMA]
                ++ [DQUOTE] ++ (if pd_isna county_fips then [] else py_str county_fips)
                ++ [DQUOTE] ++ [COMMA]
                ++ str_of_int d ++ [COMMA] ++ str_of_int n ++ [LF])))
  | _ => Raise ValueError
  end.

(** The lines written until a row raises. *)
Fixpoint rows_text (rows : list (list value)) : str * outcome unit :=
  match rows with
  | [] => ([], Return tt)
  | row :: rows' =>
      match row_line row with
      | Return l => (l ++ (rows_text rows').1, (rows_text rows').2)
      | Raise e => ([], Raise e)
      end
  end.

(** The text the writer leaves in the file, and how it ends. *)
Definition csv_text (fr : DataFrame) : str * outcome unit :=
  match getitem_list fr cols with
  | Return sel => (header ++ (rows_text (itertuples sel)).1, (rows_text (itertuples sel)).2)
  | Raise e => (header, Raise e)
  end.

(** What processing a frame returns, and the text it leaves in the output
    file ([None] when the file is not opened). *)
Definition process_frame (fr : DataFrame) : (bool * nat) * option str :=
  match finalize_frame fr with
  | Raise _ => ((false, 0), None)
  | Return out =>
      if empty out then ((false, 0), None)
      else match (csv_text out).2 with
           | Return _ => ((true, index_len out), Some (csv_text out).1)
           | Raise _ => ((false, 0), Some (csv_text out).1)
           end
  end.

Definition process_source (src : option str) : (bool * nat) * option str :=
  match src with
  | None => ((false, 0), None)
  | Some text =>
      match read_csv lib text with
      | None => ((false, 0), None)
      | Some fr => process_frame fr
      end
  end.

(** The digits [county_fips] keeps of a text. *)
Definition fips_digits (t : str) : str := default [] (search_digits t).

(** [r] is the first contiguous run of digit characters of [t]: the empty
    text when [t] holds no digit, and otherwise a non-empty run of digits
    that follows a digit-free prefix and is not followed by a digit. *)
Definition first_digit_run (t r : str) : Prop :=
  (Forall (fun c => is_digit c = false) t /\ r = [])
  \/ (exists pre post,
        t = pre ++ r ++ post
        /\ Forall (fun c => is_digit c = false) pre
        /\ r <> []
        /\ Forall (fun c => is_digit c = true) r
        /\ match post with [] => True | c :: _ => is_digit c = false end).

(** ** [main] *)

(** The names of the entries of a directory that match [*.csv], in the
    order [Path.glob] yields them; the order is the operating system's. *)
Variable glob_csv : gmap str str -> str -> list str.

(** The [for] loop of [main] (lines 149-156). *)
Fixpoint main_loop (final_data_dir : str) (csv_files : list str) (c : counters) : M counters :=
  match csv_files with
  | [] => ret c
  | csv_file :: rest =>
      let output_file := path_join final_data_dir (basename csv_file) in
      r <- process_csv_file csv_file output_file ;;
      main_loop final_data_dir rest
        (if r.1 then
           {| successful_files := successful_files c + 1;
              failed_files := failed_files c;
              total_finalized_records := total_finalized_records c + r.2 |}
         else
           {| successful_files := successful_files c;
              failed_files := failed_files c + 1;
              total_finalized_records := total_finalized_records c |})
  end.

(** [main].  [mkdir(exist_ok=True)] changes no file; directories are not
    part of the file model. *)
Definition main (b : batch) : outcome unit * batch :=
  let appalachian_data_dir := py "appalachian_data" in
  let final_data_dir := py "final_data" in
  let b := batch_logger INFO (CreatedDirectory final_data_dir) b in
  let csv_files :=
    path_join appalachian_data_dir <$> glob_csv (files (batch_world b)) appalachian_data_dir in
  if bool_decide (csv_files = []) then
    (Return tt, batch_logger ERROR NoCsvFilesFound b)
  else
    let b := batch_logger INFO (FoundCsvFiles (length csv_files)) b in
    match main_loop final_data_dir csv_files
            {| successful_files := 0; failed_files := 0; total_finalized_records := 0 |}
            (batch_world b) with
    | (Raise e, w) => (Raise e, {| batch_world := w; batch_log := batch_log b |})
    | (Return c, w) =>
        let b := {| batch_world := w; batch_log := batch_log b |} in
        let b := batch_logger INFO Rule b in
        let b := batch_logger INFO SummaryTitle b in
        let b := batch_logger INFO Rule b in
        let b := batch_logger INFO (TotalFilesProcessed (length csv_files)) b in
        let b := batch_logger INFO (SuccessfullyProcessed (successful_files c)) b in
        let b := batch_logger INFO (FailedToProcess (failed_files c)) b in
        let b := batch_logger INFO (TotalFinalizedRecords (total_finalized_records c)) b in
        let b := batch_logger INFO (FilesSavedTo final_data_dir) b in
        (Return tt, b)
    end.

(** What the loop computes, as functions of the file system: each file in
    turn is processed on the files its predecessors left. *)
Definition tally (r : bool * nat) (c : counters) : counters :=
  if r.1 then
    {| successful_files := successful_files c + 1;
       failed_files := failed_files c;
       total_finalized_records := total_finalized_records c + r.2 |}
  else
    {| successful_files := successful_files c;
       failed_files := failed_files c + 1;
       total_finalized_records := total_finalized_records c |}.

Fixpoint loop_files (final_data_dir : str) (csv_files : list str) (fs : gmap str str)
  : gmap str str :=
  match csv_files with
  | [] => fs
  | csv_file :: rest =>
      loop_files final_data_dir rest
        (written (path_join final_data_dir (basename csv_file))
           (process_source (fs !! csv_file)).2 fs)
  end.

Fixpoint loop_counters (final_data_dir : str) (csv_files : list str) (fs : gmap str str)
    (c : counters) : counters :=
  match csv_files with
  | [] => c
  | csv_file :: rest =>
      loop_counters final_data_dir rest
        (written (path_join final_data_dir (basename csv_file))
           (process_source (fs !! csv_file)).2 fs)
        (tally (process_source (fs !! csv_file)).1 c)
  end.

(** What each file gives when it is processed alone on the files [fs0]. *)
Definition alone (fs0 : gmap str str) (p : str) : (bool * nat) * option str :=
  process_source (fs0 !! p).

(** What [process_csv_file] returns for a file of the input directory when
    that file alone is processed in the world [w]. *)
Definition processed_alone (w : world) (csv_file : str) : bool * nat :=
  match (process_csv_file csv_file (path_join (py "final_data") (basename csv_file)) w).1 with
  | Return r => r
  | Raise _ => (false, 0)
  end.

(** * Proofs *)

(** ** Running programs *)

Lemma heap_lookup_new (h l : list DataFrame) (i : nat) :
  (h ++ l) !! (length h + i) = l !! i.
Proof. rewrite lookup_app_r by lia. f_equal. lia. Qed.

Lemma heap_lookup_first (h l : list DataFrame) :
  (h ++ l) !! length h = l !! 0.
Proof. rewrite <- (heap_lookup_new h l 0). f_equal. lia. Qed.

Lemma heap_lookup_alloc (h : list DataFrame) (fr : DataFrame) :
  (h ++ [fr]) !! length h = Some fr.
Proof. rewrite heap_lookup_first. reflexivity. Qed.

Lemma heap_insert_new (h l : list DataFrame) (i : nat) (x : DataFrame) :
  <[length h + i := x]> (h ++ l) = h ++ <[i := x]> l.
Proof. apply insert_app_r. Qed.

Ltac run_unfold :=
  unfold df_shape, df_columns, df_copy, df_rename, df_getitem_list, df_getitem,
    df_setitem, df_dtypes, df_len, df_empty, df_itertuples, pd_DataFrame,
    logger_info, logger_error, logger, bind, deref, alloc, store, ret, lift, raise.

Ltac heap_norm :=
  cbn [heap log files];
  repeat rewrite <- app_assoc;
  repeat rewrite length_app;
  cbn [length app Nat.add];
  repeat first
    [ rewrite heap_lookup_first
    | rewrite heap_lookup_new
    | rewrite heap_insert_new ];
  cbn [lookup list_lookup insert list_insert].

Ltac known_outcome :=
  match goal with
  | H : ?o = Return _ |- context [?o] => rewrite H
  | H : ?o = Raise _ |- context [?o] => rewrite H
  end.

Ltac destruct_outcome :=
  match goal with
  | |- context [match ?o with Return _ => _ | Raise _ => _ end] =>
      lazymatch o with
      | getitem_list _ _ => destruct o eqn:?
      | getitem _ _ => destruct o eqn:?
      | str_extract_digits _ => destruct o eqn:?
      | str_replace _ _ => destruct o eqn:?
      | to_numeric _ => destruct o eqn:?
      | astype_int64 _ => destruct o eqn:?
      end
  end.

Lemma bind_return {A B} (m : M A) (k : A -> M B) w a w' :
  m w = (Return a, w') -> bind m k w = k a w'.
Proof. intros H. unfold bind. rewrite H. reflexivity. Qed.

Lemma bind_raise {A B} (m : M A) (k : A -> M B) w e w' :
  m w = (Raise e, w') -> bind m k w = (Raise e, w').
Proof. intros H. unfold bind. rewrite H. reflexivity. Qed.

Lemma df_shape_run l h lg fs fr :
  h !! l = Some fr ->
  df_shape l {| heap := h; log := lg; files := fs |} =
    (Return (shape fr), {| heap := h; log := lg; files := fs |}).
Proof. intros H. run_unfold. cbn [heap]. rewrite H. reflexivity. Qed.

Lemma df_empty_run l h lg fs fr :
  h !! l = Some fr ->
  df_empty l {| heap := h; log := lg; files := fs |} =
    (Return (empty fr), {| heap := h; log := lg; files := fs |}).
Proof. intros H. run_unfold. cbn [heap]. rewrite H. reflexivity. Qed.

Lemma df_len_run l h lg fs fr :
  h !! l = Some fr ->
  df_len l {| heap := h; log := lg; files := fs |} =
    (Return (index_len fr), {| heap := h; log := lg; files := fs |}).
Proof. intros H. run_unfold. cbn [heap]. rewrite H. reflexivity. Qed.

(** [finalize_dataframe] computes [finalize_frame] of its argument: it
    allocates new objects past the end of the heap, appends to the log,
    leaves the files alone, and returns the last object it allocated. *)
Lemma finalize_dataframe_run df filename h lg fs fr :
  h !! df = Some fr ->
  exists hs ls,
    finalize_dataframe df filename {| heap := h; log := lg; files := fs |} =
      (match finalize_frame fr with
       | Return _ => Return (length h + pred (length hs))
       | Raise e => Raise e
       end,
       {| heap := h ++ hs; log := lg ++ ls; files := fs |})
    /\ match finalize_frame fr with
       | Return out => last hs = Some out
       | Raise _ => True
       end.
Proof.
  intros Hdf.
  unfold finalize_dataframe, finalize_frame. run_unfold.
  repeat (progress (try rewrite Hdf; heap_norm)).
  fold (missing_columns fr).
  destruct (bool_decide (missing_columns fr = [])); cbn [negb].
  2: { eexists [_; _; _], _. heap_norm. split; reflexivity. }
  unfold coerce_frame, county_fips_coercion, strip_punctuation, int64_coercion, and_then.
  heap_norm.
  repeat (first [known_outcome | destruct_outcome]; heap_norm);
    heap_norm;
    try (eexists [_; _], _; split; reflexivity);
    try (eexists [_; _; _; _], _; split; reflexivity).
Qed.

Lemma finalize_dataframe_missing df filename h lg fs fr :
  h !! df = Some fr ->
  missing_columns fr <> [] ->
  finalize_dataframe df filename {| heap := h; log := lg; files := fs |} =
    (Return (length h + 2),
     {| heap := h ++ [fr; rename column_mapping fr; empty_frame];
        log := lg ++ [ (INFO, Finalizing filename);
                       (INFO, OriginalShape (shape fr));
                       (INFO, OriginalColumns (labels fr));
                       (INFO, ColumnsAfterRenaming (labels (rename column_mapping fr)));
                       (ERROR, MissingRequiredColumns filename (missing_columns fr)) ];
        files := fs |}).
Proof.
  intros Hdf Hmiss.
  unfold finalize_dataframe. run_unfold.
  repeat (progress (try rewrite Hdf; heap_norm)).
  fold (missing_columns fr).
  rewrite bool_decide_eq_false_2 by exact Hmiss. cbn [negb]. heap_norm. reflexivity.
Qed.

Lemma for_each_write (p : str) (body : list value -> M unit) :
  (forall row w,
      body row w = match row_line row with
                   | Return l => f_write p l w
                   | Raise e => (Raise e, w)
                   end) ->
  forall rows h lg (fs : gmap str str) t0,
    fs !! p = Some t0 ->
    for_each rows body {| heap := h; log := lg; files := fs |} =
      ((rows_text rows).2,
       {| heap := h; log := lg; files := <[p := t0 ++ (rows_text rows).1]> fs |}).
Proof.
  intros Hbody rows. induction rows as [|row rows IH]; intros h lg fs t0 Hp.
  - cbn. rewrite app_nil_r, insert_id by done. reflexivity.
  - cbn [for_each rows_text]. unfold bind. rewrite Hbody.
    destruct (row_line row) as [l|e].
    + unfold f_write. cbn [heap log files fst snd]. rewrite Hp. cbn [default].
      rewrite (IH _ _ _ (t0 ++ l)) by apply lookup_insert_eq.
      rewrite insert_insert_eq, app_assoc. reflexivity.
    + cbn [fst snd]. rewrite app_nil_r, insert_id by done. reflexivity.
Qed.

Lemma write_csv_run df output_path h lg fs fr :
  h !! df = Some fr ->
  write_csv_only_county_fips_quoted df output_path {| heap := h; log := lg; files := fs |} =
    ((csv_text fr).2,
     {| heap := h ++ match getitem_list fr cols with Return sel => [sel] | Raise _ => [] end;
        log := lg;
        files := <[output_path := (csv_text fr).1]> fs |}).
Proof.
  intros Hdf. unfold write_csv_only_county_fips_quoted, csv_text.
  unfold bind at 1. unfold open_w. cbn [heap log files].
  unfold bind at 1. unfold f_write at 1. cbn [heap log files].
  rewrite lookup_insert_eq, insert_insert_eq. cbn [default app].
  unfold bind at 1. unfold df_getitem_list, bind, deref, lift, alloc. cbn [heap log files].
  rewrite Hdf.
  destruct (getitem_list fr cols) as [sel|e]; cbn [fst snd].
  2: { rewrite app_nil_r. reflexivity. }
  unfold df_itertuples, bind, deref, ret. heap_norm.
  erewrite for_each_write; [| | apply lookup_insert_eq].
  - rewrite insert_insert_eq. reflexivity.
  - intros row w. unfold row_line.
    destruct row as [|year [|county [|state_name [|county_fips [|dollars [|n_loans [|? ?]]]]]]];
      try reflexivity.
    unfold bind, lift, and_then.
    destruct (py_int dollars); [|reflexivity].
    destruct (py_int n_loans); reflexivity.
Qed.

Lemma process_csv_file_run input_path output_path h lg fs :
  exists hs ls,
    process_csv_file input_path output_path {| heap := h; log := lg; files := fs |} =
      (Return (process_source (fs !! input_path)).1,
       {| heap := h ++ hs; log := lg ++ ls;
          files := written output_path (process_source (fs !! input_path)).2 fs |}).
Proof.
  unfold process_csv_file, try_except, process_source, written.
  erewrite bind_return by reflexivity.
  unfold bind at 1. unfold pd_read_csv. cbn [heap log files].
  destruct (fs !! input_path) as [text|].
  2: { run_unfold. heap_norm. exists []. eexists. rewrite app_nil_r. reflexivity. }
  destruct (read_csv lib text) as [fr|].
  2: { run_unfold. heap_norm. exists []. eexists. rewrite app_nil_r. reflexivity. }
  unfold alloc at 1. cbn [heap log files].
  erewrite bind_return by (apply df_shape_run, heap_lookup_alloc).
  erewrite bind_return by reflexivity. cbn [heap log files].
  destruct (finalize_dataframe_run (length h) (basename input_path)
              (h ++ [fr]) ((lg ++ [(INFO, Processing input_path)]) ++
                           [(INFO, Loaded (shape fr).1 (shape fr).2 input_path)])
              fs fr) as (hs & ls & Hrun & Hlast).
  { apply heap_lookup_alloc. }
  unfold process_frame.
  destruct (finalize_frame fr) as [out|e].
  2: { erewrite bind_raise by exact Hrun. run_unfold. cbn [heap log files fst snd].
       repeat rewrite <- app_assoc. eexists _, _. reflexivity. }
  erewrite bind_return by exact Hrun.
  assert (Hout : ((h ++ [fr]) ++ hs) !! (length (h ++ [fr]) + pred (length hs)) = Some out).
  { rewrite heap_lookup_new. rewrite <- Hlast, last_lookup. reflexivity. }
  erewrite bind_return by (apply df_empty_run, Hout).
  destruct (empty out).
  { run_unfold. cbn [heap log files fst snd].
    repeat rewrite <- app_assoc. eexists _, _. reflexivity. }
  unfold bind at 1. rewrite (write_csv_run _ _ _ _ _ _ Hout).
  assert (Hout' : forall l, (((h ++ [fr]) ++ hs) ++ l) !! (length (h ++ [fr]) + pred (length hs)) = Some out).
  { intros l. apply lookup_app_l_Some, Hout. }
  destruct (csv_text out) as [t [[]|e]]; cbn [fst snd].
  - erewrite bind_return by reflexivity.
    erewrite bind_return by (apply df_len_run, Hout').
    erewrite bind_return by reflexivity.
    erewrite bind_return by (apply df_len_run, Hout').
    unfold ret. cbn [heap log files].
    repeat rewrite <- app_assoc. eexists _, _. reflexivity.
  - run_unfold. cbn [heap log files].
    repeat rewrite <- app_assoc. eexists _, _. reflexivity.
Qed.

(** ** The column coercions *)

Lemma Series_astype_str_texts s :
  Series_astype_str s = Object (Str <$> Series_texts s).
Proof.
  destruct s as [l|l]; cbn; f_equal; rewrite <- list_fmap_compose; reflexivity.
Qed.

Lemma length_Series_texts s : length (Series_texts s) = Series_len s.
Proof. destruct s; cbn; apply length_fmap. Qed.

Lemma county_fips_coercion_series s :
  county_fips_coercion (ItemSeries s) =
    Return (Object ((fun t => Str (fips_digits t)) <$> Series_texts s)).
Proof.
  unfold county_fips_coercion, str_extract_digits, astype_str, str_accessor, and_then.
  rewrite Series_astype_str_texts. cbn [Series_fillna]. do 2 f_equal.
  rewrite <- !list_fmap_compose. apply list_fmap_ext. intros _ t _. cbn.
  unfold fips_digits. destruct (search_digits t); reflexivity.
Qed.

Lemma digit_prefix_spec s :
  exists post,
    s = digit_prefix s ++ post
    /\ Forall (fun c => is_digit c = true) (digit_prefix s)
    /\ match post with [] => True | c :: _ => is_digit c = false end.
Proof.
  induction s as [|c s (post & Hs & Hall & Hpost)].
  - exists []. repeat split. constructor.
  - cbn [digit_prefix]. destruct (is_digit c) eqn:Hc.
    + exists post. repeat split.
      * cbn. f_equal. exact Hs.
      * constructor; assumption.
      * exact Hpost.
    + exists (c :: s). repeat split; [constructor | exact Hc].
Qed.

Lemma fips_digits_spec t : first_digit_run t (fips_digits t).
Proof.
  unfold fips_digits. induction t as [|c t IH]; cbn [search_digits].
  - left. split; [constructor | reflexivity].
  - destruct (is_digit c) eqn:Hc.
    + right. destruct (digit_prefix_spec t) as (post & Ht & Hall & Hpost).
      exists [], post. cbn [default app]. repeat split.
      * cbn. f_equal. exact Ht.
      * constructor.
      * discriminate.
      * constructor; assumption.
      * exact Hpost.
    + destruct IH as [[Hnone Hr] | (pre & post & Ht & Hpre & Hne & Hall & Hpost)].
      * left. split; [constructor; assumption | exact Hr].
      * right. exists (c :: pre), post. repeat split; try assumption.
        -- cbn. f_equal. exact Ht.
        -- constructor; assumption.
Qed.

Lemma strip_punctuation_series s :
  strip_punctuation (ItemSeries s) = Return (Object ((fun t => Str (strip t)) <$> Series_texts s)).
Proof.
  unfold strip_punctuation, str_replace, astype_str, str_accessor, and_then.
  rewrite Series_astype_str_texts. do 2 f_equal.
  rewrite <- !list_fmap_compose. reflexivity.
Qed.

Lemma astype_int64_finite (ns : list numeric) :
  Forall reads_finite ns ->
  exists ks, astype_int64 (fillna_zero (collect ns)) = Return (Int64 ks)
             /\ length ks = length ns.
Proof.
  intros Hfin. unfold collect.
  destruct (existsb saw_float ns || existsb saw_uint ns && existsb saw_sint ns).
  - cbn [fillna_zero astype_int64].
    destruct (mapM cast_double
                ((fun d => match d with None => Some (Finite 0) | _ => d end) <$>
                   (as_double <$> ns))) as [ks|] eqn:E.
    + exists ks. split; [reflexivity|].
      apply length_mapM in E. rewrite !length_fmap in E. congruence.
    + exfalso. apply eq_None_not_Some in E. apply E.
      apply mapM_is_Some. rewrite !Forall_fmap.
      eapply Forall_impl; [exact Hfin|]. intros n Hn. unfold reads_finite in Hn. cbn.
      destruct n as [|z [|k]|[|k]]; cbn in *; eauto; congruence.
  - destruct (existsb saw_uint ns); cbn; eexists; (split; [reflexivity|]);
      rewrite ?length_fmap; reflexivity.
Qed.

Lemma wrap_int64_id z : (INT64_MIN <= z <= INT64_MAX)%Z -> wrap_int64 z = z.
Proof.
  unfold wrap_int64, INT64_MIN, INT64_MAX. intros H.
  rewrite Z.mod_small by lia. lia.
Qed.

Lemma astype_int64_cells (ns : list numeric) (ks : list Z) :
  astype_int64 (fillna_zero (collect ns)) = Return (Int64 ks) ->
  Forall2 cell_int64 ns ks.
Proof.
  unfold collect.
  destruct (existsb saw_float ns || existsb saw_uint ns && existsb saw_sint ns) eqn:Hf.
  - cbn [fillna_zero astype_int64].
    destruct (mapM _ _) as [ks'|] eqn:E; [|discriminate]. intros [= <-].
    apply mapM_Some in E. rewrite !Forall2_fmap_l in E.
    eapply Forall2_impl; [exact E|]. intros n k Hk. cbn in Hk.
    destruct n as [|z [|z']|d]; cbn in *; try exact I.
    + congruence.
    + intros. congruence.
  - apply orb_false_iff in Hf as [Hf _].
    assert (Hall : forall n, n ∈ ns -> saw_float n = false).
    { intros n Hn. destruct (saw_float n) eqn:E; [|reflexivity].
      rewrite <- Hf. symmetry. apply existsb_exists. exists n.
      split; [apply list_elem_of_In, Hn | exact E]. }
    assert (Hcell : forall n, n ∈ ns -> cell_int64 n (as_int n)
                                        /\ cell_int64 n (wrap_int64 (as_int n))).
    { intros n Hn. specialize (Hall n Hn).
      destruct n as [|z [|z']|d]; cbn in *; try discriminate; try (split; exact I).
      split; intros; [reflexivity | apply wrap_int64_id; assumption]. }
    destruct (existsb saw_uint ns); cbn [fillna_zero astype_int64]; intros [= <-];
      rewrite <- ?list_fmap_compose;
      apply Forall2_fmap_r, Forall_Forall2_diag, Forall_forall; intros n Hn;
      apply Hcell, Hn.
Qed.

Lemma digits_value_bound (ds : str) :
  forallb ascii_digit ds = true ->
  (0 <= digits_value ds < 10 ^ Z.of_nat (length ds))%Z.
Proof.
  unfold digits_value.
  assert (H : forall acc n, (0 <= acc < 10 ^ Z.of_nat n)%Z ->
              forallb ascii_digit ds = true ->
              (0 <= fold_left (fun a c => 10 * a + digit_value c) ds acc
               < 10 ^ Z.of_nat (n + length ds))%Z).
  { induction ds as [|c ds IH]; intros acc n Hacc Hds.
    - cbn. rewrite Nat.add_0_r. exact Hacc.
    - cbn [forallb] in Hds. apply andb_true_iff in Hds as [Hc Hds].
      cbn [fold_left length]. replace (n + S (length ds)) with (S n + length ds) by lia.
      apply IH; [|exact Hds].
      unfold ascii_digit in Hc. apply andb_true_iff in Hc as [H1 H2].
      apply N.leb_le in H1, H2. unfold digit_value.
      rewrite Nat2Z.inj_succ, Z.pow_succ_r by lia. lia. }
  intros Hds. apply (H 0%Z 0 ltac:(cbn; lia) Hds).
Qed.

Lemma short_int_literal_range s z :
  short_int_literal s = Some z -> (- 10 ^ 15 < z < 10 ^ 15)%Z.
Proof.
  assert (H : forall ds v, unsigned_short ds = Some v -> (0 <= v < 10 ^ 15)%Z).
  { intros ds v. unfold unsigned_short.
    destruct (forallb ascii_digit ds) eqn:Hd; [|discriminate]. cbn [andb].
    destruct (1 <=? length ds); [|discriminate]. cbn [andb].
    destruct (length ds <=? 15) eqn:Hlen; [|discriminate]. intros [= <-].
    apply Nat.leb_le in Hlen. pose proof (digits_value_bound ds Hd) as Hb.
    assert (10 ^ Z.of_nat (length ds) <= 10 ^ 15)%Z by (apply Z.pow_le_mono_r; lia).
    lia. }
  unfold short_int_literal. destruct s as [|c ds]; [discriminate|].
  destruct (c =? MINUS)%N.
  - destruct (unsigned_short ds) as [v|] eqn:E; [|discriminate].
    intros [= <-]. apply H in E. lia.
  - destruct (c =? PLUS)%N; intros E; apply H in E; lia.
Qed.

Lemma convert_text_short s z :
  short_int_literal s = Some z -> convert_text s = IntLit z (Finite z).
Proof.
  intros H. unfold convert_text. rewrite H. destruct s; [discriminate | reflexivity].
Qed.

Lemma convert_text_no_number s :
  existsb ascii_digit s = false -> inf_spelling s = false -> convert_text s = Null.
Proof.
  intros Hd Hi. unfold convert_text. destruct s as [|c s]; [reflexivity|].
  destruct (short_int_literal (c :: s)) as [z|] eqn:E.
  - exfalso. revert E Hd. unfold short_int_literal, unsigned_short.
    assert (Hno : forall ds, existsb ascii_digit ds = false ->
                   forallb ascii_digit ds && (1 <=? length ds) = false).
    { intros [|d ds]; [reflexivity|]. cbn. intros Hx. apply orb_false_iff in Hx as [-> _].
      reflexivity. }
    cbn [existsb]. intros E Hd. apply orb_false_iff in Hd as [Hc Hd].
    destruct (c =? MINUS)%N; [rewrite (Hno _ Hd) in E; discriminate|].
    destruct (c =? PLUS)%N; [rewrite (Hno _ Hd) in E; discriminate|].
    rewrite (Hno (c :: s)) in E; [discriminate|]. cbn. rewrite Hc. exact Hd.
  - rewrite Hd, Hi. reflexivity.
Qed.

Lemma cell_int64_text t k : cell_int64 (convert_text t) k -> text_int64 t k.
Proof.
  intros H. split.
  - intros z Hz. rewrite (convert_text_short _ _ Hz) in H. cbn in H.
    apply H; [reflexivity|]. apply short_int_literal_range in Hz.
    unfold INT64_MIN, INT64_MAX. lia.
  - intros Hd Hi. rewrite (convert_text_no_number _ Hd Hi) in H. exact H.
Qed.

(** ** Frames with the six required columns *)

Lemma six_columns_labels n sy sc ss sf sd sn :
  labels (six_columns n sy sc ss sf sd sn) = required_columns.
Proof. reflexivity. Qed.

Lemma getitem_series_inv fr key s :
  getitem fr key = Return (ItemSeries s) -> columns_named key fr = [(key, s)].
Proof.
  unfold getitem. destruct (columns_named key fr) as [|c [|c' cs]] eqn:E; try discriminate.
  intros [= <-].
  assert (Hc : c ∈ columns_named key fr) by (rewrite E; apply list_elem_of_here).
  apply list_elem_of_filter in Hc as [Hc _]. destruct c as [k s]; cbn in *. congruence.
Qed.

Lemma columns_named_label fr key c cs :
  columns_named key fr = c :: cs -> key ∈ labels fr.
Proof.
  intros E.
  assert (Hc : c ∈ columns_named key fr) by (rewrite E; apply list_elem_of_here).
  apply list_elem_of_filter in Hc as [Hk Hc]. unfold labels.
  apply list_elem_of_fmap. exists c. split; [congruence | exact Hc].
Qed.

(** When each required label names exactly one column of the frame,
    [df[required_columns]] is these six columns. *)
Lemma getitem_list_six fr sy sc ss sf sd sn :
  getitem fr (py "year") = Return (ItemSeries sy) ->
  getitem fr (py "county") = Return (ItemSeries sc) ->
  getitem fr (py "state_name") = Return (ItemSeries ss) ->
  getitem fr (py "county_fips") = Return (ItemSeries sf) ->
  getitem fr (py "502_investment_dollars") = Return (ItemSeries sd) ->
  getitem fr (py "number_of_502_investment") = Return (ItemSeries sn) ->
  getitem_list fr required_columns = Return (six_columns (index_len fr) sy sc ss sf sd sn)
  /\ filter (fun c => c ∉ labels fr) required_columns = [].
Proof.
  intros Hy Hc Hs Hf Hd Hn.
  apply getitem_series_inv in Hy, Hc, Hs, Hf, Hd, Hn.
  split.
  - unfold getitem_list, required_columns. cbn [select].
    rewrite Hy, Hc, Hs, Hf, Hd, Hn. reflexivity.
  - unfold required_columns.
    repeat (rewrite filter_cons_False;
            [| intros Hne; apply Hne; eapply columns_named_label; eassumption]).
    reflexivity.
Qed.

Lemma coerce_frame_six n sy sc ss sf sd sn :
  coerce_frame (six_columns n sy sc ss sf sd sn) =
    and_then (county_fips_coercion (ItemSeries sf)) (fun sf' =>
    and_then (dollars_coercion (ItemSeries sd)) (fun sd' =>
    and_then (int64_coercion (ItemSeries sn)) (fun sn' =>
    Return (six_columns n sy sc ss sf' sd' sn')))).
Proof.
  unfold coerce_frame, dollars_coercion.
  change (getitem (six_columns n sy sc ss sf sd sn) (py "county_fips"))
    with (Return (ItemSeries sf)).
  cbn [and_then].
  destruct (county_fips_coercion (ItemSeries sf)) as [sf'|e]; [|reflexivity].
  cbn [and_then].
  change (setitem (six_columns n sy sc ss sf sd sn) (py "county_fips") sf')
    with (six_columns n sy sc ss sf' sd sn).
  change (getitem (six_columns n sy sc ss sf' sd sn) (py "502_investment_dollars"))
    with (Return (ItemSeries sd)).
  cbn [and_then].
  destruct (strip_punctuation (ItemSeries sd)) as [sd1|e]; [|reflexivity].
  cbn [and_then].
  change (setitem (six_columns n sy sc ss sf' sd sn) (py "502_investment_dollars") sd1)
    with (six_columns n sy sc ss sf' sd1 sn).
  change (getitem (six_columns n sy sc ss sf' sd1 sn) (py "502_investment_dollars"))
    with (Return (ItemSeries sd1)).
  cbn [and_then].
  destruct (int64_coercion (ItemSeries sd1)) as [sd2|e]; [|reflexivity].
  cbn [and_then].
  change (setitem (six_columns n sy sc ss sf' sd1 sn) (py "502_investment_dollars") sd2)
    with (six_columns n sy sc ss sf' sd2 sn).
  change (getitem (six_columns n sy sc ss sf' sd2 sn) (py "number_of_502_investment"))
    with (Return (ItemSeries sn)).
  cbn [and_then].
  destruct (int64_coercion (ItemSeries sn)) as [sn'|e]; reflexivity.
Qed.

Lemma index_len_setitem fr key s : index_len (setitem fr key s) = index_len fr.
Proof. reflexivity. Qed.

Lemma index_len_getitem_list fr keys sel :
  getitem_list fr keys = Return sel -> index_len sel = index_len fr.
Proof.
  unfold getitem_list. destruct (select keys fr); [|discriminate].
  intros [= <-]. reflexivity.
Qed.

Lemma index_len_coerce_frame fr out :
  coerce_frame fr = Return out -> index_len out = index_len fr.
Proof.
  unfold coerce_frame, and_then.
  repeat match goal with
         | |- context [match ?o with Return _ => _ | Raise _ => _ end] =>
             destruct o; try discriminate
         end.
  intros [= <-]. reflexivity.
Qed.

Lemma finalize_frame_missing fr :
  missing_columns fr <> [] -> finalize_frame fr = Return empty_frame.
Proof.
  intros H. unfold finalize_frame. rewrite bool_decide_eq_false_2 by exact H. reflexivity.
Qed.

(** A frame without rows finalizes, if at all, to a frame that is [empty]. *)
Lemma finalize_frame_no_rows fr out :
  index_len fr = 0 -> finalize_frame fr = Return out -> empty out = true.
Proof.
  intros H0. unfold finalize_frame.
  destruct (bool_decide (missing_columns fr = [])).
  - unfold and_then.
    destruct (getitem_list (rename column_mapping fr) required_columns) as [sel|] eqn:E;
      [|discriminate].
    intros Hc. apply index_len_coerce_frame in Hc. apply index_len_getitem_list in E.
    unfold empty. rewrite Hc, E. cbn [rename index_len]. rewrite H0. reflexivity.
  - intros [= <-]. reflexivity.
Qed.

(** ** The writer on finalized record sets *)

Lemma fmap_seq_lookup {A B} (f : option A -> B) (l : list A) :
  (fun i => f (l !! i)) <$> seq 0 (length l) = (fun x => f (Some x)) <$> l.
Proof.
  induction l as [|x l IH] using rev_ind; [reflexivity|].
  rewrite length_app, Nat.add_comm. cbn [length Nat.add]. rewrite seq_S, !fmap_app.
  cbn [fmap list_fmap Nat.add]. f_equal.
  - rewrite <- IH. apply list_fmap_ext. intros j i Hi.
    apply lookup_seq in Hi as [-> Hi]. cbn [Nat.add].
    rewrite lookup_app_l by exact Hi. reflexivity.
  - rewrite list_lookup_middle by reflexivity. reflexivity.
Qed.

Lemma itertuples_records rs :
  itertuples (frame_of_records rs) = row_of_record <$> rs.
Proof.
  unfold itertuples, frame_of_records, six_columns. cbn [index_len data].
  etrans; [| exact (fmap_seq_lookup (fun o => match o with
                                               | Some r => row_of_record r
                                               | None => [VNaN; VNaN; VNaN; VNaN; VNaN; VNaN]
                                               end) rs)].
  apply list_fmap_ext. intros _ i _. cbn [fmap list_fmap snd Series_at].
  rewrite !list_lookup_fmap. destruct (rs !! i) as [r|]; [|reflexivity].
  cbn. unfold row_of_record, value_of_obj.
  destruct (rec_year r), (rec_county r), (rec_state_name r), (rec_county_fips r); reflexivity.
Qed.

Lemma row_line_record r : row_line (row_of_record r) = Return (csv_line r).
Proof.
  unfold row_line, row_of_record, csv_line, value_of_obj, csv_year, csv_field.
  destruct (rec_year r), (rec_county r), (rec_state_name r), (rec_county_fips r); reflexivity.
Qed.

Lemma rows_text_records rs :
  rows_text (row_of_record <$> rs) = (concat (csv_line <$> rs), Return tt).
Proof.
  induction rs as [|r rs IH]; [reflexivity|].
  cbn [fmap list_fmap rows_text concat]. rewrite row_line_record.
  fold (row_of_record <$> rs). rewrite IH. reflexivity.
Qed.

Lemma csv_text_records rs :
  csv_text (frame_of_records rs) = (csv_header ++ concat (csv_line <$> rs), Return tt).
Proof.
  unfold csv_text.
  change (getitem_list (frame_of_records rs) cols) with (Return (frame_of_records rs)).
  cbv beta iota. rewrite itertuples_records, rows_text_records. reflexivity.
Qed.

(** Every frame with the six columns, three of them texts of the index
    length and two of them integers, holds a finalized record set: this is
    the shape [finalize_dataframe] returns. *)
Lemma six_columns_frame_of_records n (ys cs ss fs : list obj) (ds ns : list Z) :
  length ys = n -> length cs = n -> length ss = n -> length fs = n ->
  length ds = n -> length ns = n ->
  exists rs,
    six_columns n (Object ys) (Object cs) (Object ss) (Object fs) (Int64 ds) (Int64 ns)
    = frame_of_records rs.
Proof.
  revert ys cs ss fs ds ns. induction n as [|n IH]; intros ys cs ss fs ds ns Hy Hc Hs Hf Hd Hn.
  - destruct ys, cs, ss, fs, ds, ns; try discriminate. exists []. reflexivity.
  - destruct ys as [|y ys], cs as [|c cs], ss as [|s ss], fs as [|f fs],
      ds as [|d ds], ns as [|k ns]; try discriminate.
    cbn [length] in *.
    destruct (IH ys cs ss fs ds ns) as (rs & E); try lia.
    exists ({| rec_year := y; rec_county := c; rec_state_name := s; rec_county_fips := f;
               rec_dollars := d; rec_count := k |} :: rs).
    unfold frame_of_records, six_columns in *. cbn [length fmap list_fmap].
    injection E as E0 Ey Ec Es Ef Ed En.
    rewrite <- E0. repeat f_equal; assumption.
Qed.

(** * The claims *)

(** C1. For every finalized record set the writer emits the header line
    (the six field names joined by commas, unquoted), then one line per
    record with the fields in the order year, county, state_name,
    county_fips, dollars, count, joined by commas, where only county_fips
    stands between double quotes and the two amounts are bare integers;
    every line ends in one newline.  The record 2020, Fulton, Georgia,
    13121, 500000, 3 gives the line [2020,Fulton,Georgia,"13121",500000,3]. *)
Theorem write_csv_finalized_records
    (rs : list FinalizedRecord) (w : world) (df : loc) (output_path : str) :
  heap w !! df = Some (frame_of_records rs) ->
  (exists w',
      write_csv_only_county_fips_quoted df output_path w = (Return tt, w')
      /\ files w' = <[output_path := csv_header ++ concat (csv_line <$> rs)]> (files w))
  /\ csv_line {| rec_year := Str (py "2020"); rec_county := Str (py "Fulton");
                 rec_state_name := Str (py "Georgia"); rec_county_fips := Str (py "13121");
                 rec_dollars := 500000; rec_count := 3 |}
     = py "2020,Fulton,Georgia," ++ [DQUOTE] ++ py "13121" ++ [DQUOTE]
       ++ py ",500000,3" ++ [LF].
Proof.
  intros Hdf. split; [|reflexivity].
  destruct w as [h lg fs]. cbn [heap] in Hdf.
  rewrite (write_csv_run _ _ _ _ _ _ Hdf), csv_text_records.
  eexists. split; reflexivity.
Qed.

(** C2, as the code has it.  When each of the six required labels names
    exactly one column after the renaming, and no dollar or count value
    reads as an infinite number, [finalize_dataframe] returns a new frame
    with exactly the six fields in the fixed order and one row per input
    row: year, county and state_name as they were, the coerced FIPS texts
    and the two integer columns.  Every other column is gone. *)
Theorem finalize_dataframe_six_fields
    (w : world) (df : loc) (filename : str) (fr : DataFrame)
    (year county state_name county_fips dollars num : Series) :
  heap w !! df = Some fr ->
  getitem (rename column_mapping fr) (py "year") = Return (ItemSeries year) ->
  getitem (rename column_mapping fr) (py "county") = Return (ItemSeries county) ->
  getitem (rename column_mapping fr) (py "state_name") = Return (ItemSeries state_name) ->
  getitem (rename column_mapping fr) (py "county_fips") = Return (ItemSeries county_fips) ->
  getitem (rename column_mapping fr) (py "502_investment_dollars")
    = Return (ItemSeries dollars) ->
  getitem (rename column_mapping fr) (py "number_of_502_investment")
    = Return (ItemSeries num) ->
  Forall (fun t => reads_finite (convert_text (strip t))) (Series_texts dollars) ->
  match num with
  | Object l => Forall (fun o => reads_finite (convert_obj o)) l
  | Int64 _ => True
  end ->
  exists out w' ds ns,
    finalize_dataframe df filename w = (Return out, w')
    /\ heap w' !! out =
         Some (six_columns (index_len fr) year county state_name
                 (Object ((fun t => Str (fips_digits t)) <$> Series_texts county_fips))
                 (Int64 ds) (Int64 ns))
    /\ labels (six_columns (index_len fr) year county state_name
                 (Object ((fun t => Str (fips_digits t)) <$> Series_texts county_fips))
                 (Int64 ds) (Int64 ns)) = required_columns
    /\ length ds = Series_len dollars
    /\ length ns = Series_len num.
Proof.
  intros Hdf Hy Hc Hs Hf Hd Hn Hfin_d Hfin_n. destruct w as [h lg fs]. cbn [heap] in Hdf.
  destruct (getitem_list_six _ _ _ _ _ _ _ Hy Hc Hs Hf Hd Hn) as [Hsel Hmiss].
  assert (Hd' : exists ds, dollars_coercion (ItemSeries dollars) = Return (Int64 ds)
                           /\ length ds = Series_len dollars).
  { unfold dollars_coercion. rewrite strip_punctuation_series. cbn [and_then].
    unfold int64_coercion, to_numeric. cbn [and_then].
    destruct (astype_int64_finite
                (convert_obj <$> ((fun t => Str (strip t)) <$> Series_texts dollars)))
      as (ds & E & Hlen).
    { rewrite !Forall_fmap. exact Hfin_d. }
    exists ds. split; [exact E|].
    rewrite Hlen, !length_fmap. apply length_Series_texts. }
  assert (Hn' : exists ns, int64_coercion (ItemSeries num) = Return (Int64 ns)
                           /\ length ns = Series_len num).
  { unfold int64_coercion, to_numeric. destruct num as [l|l]; cbn [and_then].
    - destruct (astype_int64_finite (convert_obj <$> l)) as (ns & E & Hlen).
      { rewrite Forall_fmap. exact Hfin_n. }
      exists ns. split; [exact E|]. rewrite Hlen, length_fmap. reflexivity.
    - exists l. split; reflexivity. }
  destruct Hd' as (ds & Ed & Hlen_d), Hn' as (ns & En & Hlen_n).
  assert (Hframe : finalize_frame fr =
            Return (six_columns (index_len fr) year county state_name
                      (Object ((fun t => Str (fips_digits t)) <$> Series_texts county_fips))
                      (Int64 ds) (Int64 ns))).
  { unfold finalize_frame, missing_columns. rewrite Hmiss, Hsel. cbn [bool_decide and_then].
    rewrite bool_decide_eq_true_2 by reflexivity.
    cbn [rename index_len]. rewrite coerce_frame_six, county_fips_coercion_series.
    cbn [and_then]. rewrite Ed. cbn [and_then]. rewrite En. reflexivity. }
  destruct (finalize_dataframe_run df filename h lg fs fr Hdf) as (hs & ls & Hrun & Hlast).
  rewrite Hframe in Hrun, Hlast. rewrite Hrun.
  eexists _, _, ds, ns. split; [reflexivity|]. split.
  - cbn [heap]. rewrite heap_lookup_new, <- Hlast, last_lookup. reflexivity.
  - split; [reflexivity|]. split; assumption.
Qed.

(** C3. The [county_fips] coercion takes each value as text and keeps its
    first contiguous run of digit characters, the empty text when there is
    none; nothing is padded.  [1007.0] gives [1007], [abc] gives the empty
    text and [01007] stays [01007]. *)
Theorem county_fips_first_digit_run (s : Series) :
  (exists l,
      county_fips_coercion (ItemSeries s) = Return (Object l)
      /\ Forall2 (fun t o => exists r, o = Str r /\ first_digit_run t r) (Series_texts s) l)
  /\ county_fips_coercion
       (ItemSeries (Object [Str (py "1007.0"); Str (py "abc"); Str (py "01007"); NaN]))
     = Return (Object [Str (py "1007"); Str []; Str (py "01007"); Str []]).
Proof.
  split; [|reflexivity].
  rewrite county_fips_coercion_series. eexists. split; [reflexivity|].
  apply Forall2_fmap_r, Forall_Forall2_diag, Forall_forall. intros t _.
  exists (fips_digits t). split; [reflexivity | apply fips_digits_spec].
Qed.

(** C4.  The dollar coercion reads [$303,030] as 303030 and a text that is
    no number as 0, but a value that spells infinity is a number to
    [pd.to_numeric], stays after [fillna(0)], and makes [astype('int64')]
    raise: the coercion yields no integer, [finalize_dataframe] raises and
    the file is reported as failed. *)
Theorem dollars_infinity_raises (filename : str) :
  dollars_coercion (ItemSeries (Object [Str (py "$303,030"); Str (py "inf")]))
    = Raise IntCastingNaNError
  /\ (finalize_dataframe 0 filename
        {| heap := [filtered_frame [Str (py "$303,030"); Str (py "inf")]
                                   [Str (py "3"); Str (py "1")]];
           log := []; files := ∅ |}).1
     = Raise IntCastingNaNError
  /\ process_frame (filtered_frame [Str (py "$303,030"); Str (py "inf")]
                                   [Str (py "3"); Str (py "1")])
     = ((false, 0), None).
Proof. repeat split; vm_compute; reflexivity. Qed.

(** C5. When a required field is missing after the renaming, the operation
    fails: the error that is logged lists the missing columns, the file is
    reported as failed and no output file is written. *)
Theorem process_missing_columns
    (w : world) (input_path output_path text : str) (fr : DataFrame) :
  files w !! input_path = Some text ->
  read_csv lib text = Some fr ->
  (exists c, c ∈ required_columns /\ c ∉ labels (rename column_mapping fr)) ->
  exists w',
    process_csv_file input_path output_path w = (Return (false, 0), w')
    /\ files w' = files w
    /\ (ERROR, MissingRequiredColumns (basename input_path)
                 (filter (fun c => c ∉ labels (rename column_mapping fr)) required_columns))
       ∈ log w'
    /\ filter (fun c => c ∉ labels (rename column_mapping fr)) required_columns <> [].
Proof.
  intros Hin Hread (c & Hreq & Hc). destruct w as [h lg fs]. cbn [files] in Hin.
  assert (Hmiss : missing_columns fr <> []).
  { intros E. assert (Hin' : c ∈ missing_columns fr).
    { apply list_elem_of_filter. split; assumption. }
    rewrite E in Hin'. inversion Hin'. }
  unfold process_csv_file, try_except.
  erewrite bind_return by reflexivity.
  unfold bind at 1. unfold pd_read_csv. cbn [heap log files]. rewrite Hin, Hread.
  unfold alloc at 1. cbn [heap log files].
  erewrite bind_return by (apply df_shape_run, heap_lookup_alloc).
  erewrite bind_return by reflexivity. cbn [heap log files].
  erewrite bind_return
    by (apply finalize_dataframe_missing; [apply heap_lookup_alloc | exact Hmiss]).
  erewrite bind_return.
  2: { apply df_empty_run. rewrite <- app_assoc, length_app. cbn [length app].
       rewrite <- Nat.add_assoc. apply (heap_lookup_new h [fr; fr; _; empty_frame] 3). }
  cbn [empty empty_frame index_len Nat.eqb orb].
  run_unfold. cbn [heap log files].
  eexists. split; [reflexivity|]. cbn [files log]. split; [reflexivity|]. split.
  - fold (missing_columns fr). rewrite <- !app_assoc. cbn [app].
    rewrite !elem_of_app. right. do 6 apply list_elem_of_further. apply list_elem_of_here.
  - exact Hmiss.
Qed.

(** C6.  The count coercion has the same gap: a count that spells infinity
    makes [astype('int64')] raise. *)
Theorem count_infinity_raises (filename : str) :
  int64_coercion (ItemSeries (Object [Str (py "12"); Str (py "Infinity")]))
    = Raise IntCastingNaNError
  /\ (finalize_dataframe 0 filename
        {| heap := [filtered_frame [Str (py "$303,030"); Str (py "N/A")]
                                   [Str (py "12"); Str (py "Infinity")]];
           log := []; files := ∅ |}).1
     = Raise IntCastingNaNError
  /\ process_frame (filtered_frame [Str (py "$303,030"); Str (py "N/A")]
                                   [Str (py "12"); Str (py "Infinity")])
     = ((false, 0), None).
Proof. repeat split; vm_compute; reflexivity. Qed.

(** C7. A record set without rows that passes the column check is a
    failure: [process_csv_file] reports failure and writes no file. *)
Theorem process_no_rows (w : world) (input_path output_path text : str) (fr : DataFrame) :
  files w !! input_path = Some text ->
  read_csv lib text = Some fr ->
  index_len fr = 0 ->
  missing_columns fr = [] ->
  exists w',
    process_csv_file input_path output_path w = (Return (false, 0), w')
    /\ files w' = files w.
Proof.
  intros Hin Hread Hrows _. destruct w as [h lg fs]. cbn [files] in Hin.
  destruct (process_csv_file_run input_path output_path h lg fs) as (hs & ls & Hrun).
  rewrite Hrun, Hin. cbn [process_source]. rewrite Hread. unfold process_frame.
  destruct (finalize_frame fr) as [out|e] eqn:Hfin.
  - rewrite (finalize_frame_no_rows fr out Hrows Hfin). eexists. split; reflexivity.
  - eexists. split; reflexivity.
Qed.

(** C8. The pipeline is deterministic and idempotent.  Two runs that read
    the same input text return the same result and leave the same text in
    the output file; and a second run after the first changes no file. *)
Theorem process_twice_same_output (input_path output_path : str) (w w' : world) :
  input_path <> output_path ->
  files w !! input_path = files w' !! input_path ->
  files w !! output_path = files w' !! output_path ->
  let run1 := process_csv_file input_path output_path w in
  let run1' := process_csv_file input_path output_path w' in
  let run2 := process_csv_file input_path output_path run1.2 in
  run1.1 = run1'.1
  /\ files run1.2 !! output_path = files run1'.2 !! output_path
  /\ run2.1 = run1.1
  /\ files run2.2 = files run1.2.
Proof.
  intros Hne Hin Hout. destruct w as [h lg fs], w' as [h' lg' fs']. cbn [files] in Hin, Hout.
  destruct (process_csv_file_run input_path output_path h lg fs) as (hs & ls & Hrun).
  destruct (process_csv_file_run input_path output_path h' lg' fs') as (hs' & ls' & Hrun').
  cbv zeta. rewrite Hrun, Hrun'. cbn [fst snd files].
  destruct (process_csv_file_run input_path output_path (h ++ hs) (lg ++ ls)
              (written output_path (process_source (fs !! input_path)).2 fs))
    as (hs2 & ls2 & Hrun2).
  rewrite Hrun2. cbn [fst snd files].
  assert (Hsame : written output_path (process_source (fs !! input_path)).2 fs !! input_path
                  = fs !! input_path).
  { unfold written. destruct (process_source (fs !! input_path)).2; [|reflexivity].
    apply lookup_insert_ne. congruence. }
  rewrite Hsame, <- Hin.
  repeat split.
  - unfold written. destruct (process_source (fs !! input_path)).2.
    + rewrite !lookup_insert_eq. reflexivity.
    + exact Hout.
  - unfold written. destruct (process_source (fs !! input_path)).2; [|reflexivity].
    apply insert_insert_eq.
Qed.

(** C9. The writer replaces a missing county, state_name or county_fips by
    the empty text, and does not guard the year: the line of a record
    whose year is missing starts with the text [nan]. *)
Theorem write_csv_missing_values
    (rs : list FinalizedRecord) (w : world) (df : loc) (output_path : str) :
  heap w !! df = Some (frame_of_records rs) ->
  exists w' lines,
    write_csv_only_county_fips_quoted df output_path w = (Return tt, w')
    /\ files w' !! output_path = Some (csv_header ++ concat lines)
    /\ Forall2 (fun r line =>
         line = match rec_year r with NaN => py "nan" | Str s => s end ++ [COMMA]
                ++ match rec_county r with NaN => [] | Str s => s end ++ [COMMA]
                ++ match rec_state_name r with NaN => [] | Str s => s end ++ [COMMA]
                ++ [DQUOTE] ++ match rec_county_fips r with NaN => [] | Str s => s end
                ++ [DQUOTE] ++ [COMMA]
                ++ str_of_int (rec_dollars r) ++ [COMMA]
                ++ str_of_int (rec_count r) ++ [LF]) rs lines.
Proof.
  intros Hdf. destruct w as [h lg fs]. cbn [heap] in Hdf.
  rewrite (write_csv_run _ _ _ _ _ _ Hdf), csv_text_records.
  eexists _, (csv_line <$> rs). split; [reflexivity|]. split.
  - cbn [files fst]. apply lookup_insert_eq.
  - apply Forall2_fmap_r, Forall_Forall2_diag, Forall_forall. intros r _.
    destruct r as [[y|] [c|] [s|] [f|] d n]; reflexivity.
Qed.

(** C10. [finalize_dataframe] never mutates its argument: whether it
    returns or raises, every object that was in the heap before the call,
    the argument among them, is the same after it. *)
Theorem finalize_dataframe_preserves_heap (w : world) (df : loc) (filename : str) :
  take (length (heap w)) (heap (finalize_dataframe df filename w).2) = heap w
  /\ heap (finalize_dataframe df filename w).2 !! df = heap w !! df.
Proof.
  destruct w as [h lg fs]. cbn [heap].
  destruct (h !! df) as [fr|] eqn:Hdf.
  - destruct (finalize_dataframe_run df filename h lg fs fr Hdf) as (hs & ls & -> & _).
    cbn [snd heap]. split.
    + apply take_app_length.
    + apply lookup_app_l_Some, Hdf.
  - unfold finalize_dataframe. run_unfold. cbn [heap log files]. rewrite Hdf.
    cbn [snd heap]. split; [apply firstn_all | exact Hdf].
Qed.

(** * Further properties *)

(** X1. The dollar coercion on a column whose values all read as finite
    numbers or as none: every cell becomes an integer; the value of a
    short integer literal once [,] and [$] are removed, and 0 for the empty
    text and for a text without digits.  [$303,030] gives 303030, [N/A] and
    the empty text give 0. *)
Theorem dollars_coercion_finite (s : Series) :
  Forall (fun t => reads_finite (convert_text (strip t))) (Series_texts s) ->
  (exists ks,
      dollars_coercion (ItemSeries s) = Return (Int64 ks)
      /\ Forall2 (fun t k => text_int64 (strip t) k) (Series_texts s) ks)
  /\ dollars_coercion (ItemSeries (Object [Str (py "$303,030"); Str (py "N/A"); Str []; NaN]))
     = Return (Int64 [303030; 0; 0; 0]%Z).
Proof.
  intros Hfin. split; [|reflexivity].
  unfold dollars_coercion. rewrite strip_punctuation_series. cbn [and_then].
  unfold int64_coercion, to_numeric. cbn [and_then].
  destruct (astype_int64_finite
              (convert_obj <$> ((fun t => Str (strip t)) <$> Series_texts s)))
    as (ks & E & _).
  { rewrite !Forall_fmap. exact Hfin. }
  exists ks. split; [exact E|].
  apply astype_int64_cells in E. rewrite !Forall2_fmap_l in E.
  eapply Forall2_impl; [exact E|]. intros t k. apply cell_int64_text.
Qed.

(** X2. The count coercion on a column whose values all read as finite numbers
    or as none: a short integer literal becomes its value, a missing value
    and a text without digits become 0.  [12] gives 12, [twelve] gives 0. *)
Theorem count_coercion_finite (l : list obj) :
  Forall (fun o => reads_finite (convert_obj o)) l ->
  (exists ks,
      int64_coercion (ItemSeries (Object l)) = Return (Int64 ks)
      /\ Forall2 (fun o k => match o with
                             | Str t => text_int64 t k
                             | NaN => k = 0%Z
                             end) l ks)
  /\ int64_coercion (ItemSeries (Object [Str (py "12"); Str (py "twelve"); NaN]))
     = Return (Int64 [12; 0; 0]%Z).
Proof.
  intros Hfin. split; [|reflexivity].
  unfold int64_coercion, to_numeric. cbn [and_then].
  destruct (astype_int64_finite (convert_obj <$> l)) as (ks & E & _).
  { rewrite Forall_fmap. exact Hfin. }
  exists ks. split; [exact E|].
  apply astype_int64_cells in E. rewrite Forall2_fmap_l in E.
  eapply Forall2_impl; [exact E|]. intros [t|] k; cbn.
  - apply cell_int64_text.
  - intros H; exact H.
Qed.

(** ** The pipeline on any input *)

Lemma header_csv_header : header = csv_header.
Proof. reflexivity. Qed.

Lemma ends_newline_app (a l : str) :
  (exists body, l = body ++ [LF]) -> exists body, a ++ l = body ++ [LF].
Proof. intros (b & ->). exists (a ++ b). apply app_assoc. Qed.

Lemma ends_newline_cons (c : char) (l : str) :
  (exists body, l = body ++ [LF]) -> exists body, c :: l = body ++ [LF].
Proof. intros (b & ->). exists (c :: b). reflexivity. Qed.

Lemma row_line_ends row l : row_line row = Return l -> exists body, l = body ++ [LF].
Proof.
  unfold row_line.
  destruct row as [|year [|county [|state_name [|county_fips [|dollars [|n_loans [|? ?]]]]]]];
    try discriminate.
  unfold and_then. destruct (py_int dollars) as [d|]; [|discriminate].
  destruct (py_int n_loans) as [n|]; [|discriminate].
  intros [= <-].
  repeat first [ (exists []; reflexivity) | apply ends_newline_app | apply ends_newline_cons ].
Qed.

Lemma rows_text_lines rows :
  exists lines,
    (rows_text rows).1 = concat lines
    /\ Forall (fun l => exists body, l = body ++ [LF]) lines
    /\ ((rows_text rows).2 = Return tt -> length lines = length rows).
Proof.
  induction rows as [|row rows (lines & Ht & Hl & Hn)].
  - exists []. repeat split. constructor.
  - cbn [rows_text]. destruct (row_line row) as [l|e] eqn:E.
    + exists (l :: lines). cbn [fst snd concat length]. rewrite Ht. split; [reflexivity|].
      split; [constructor; [eapply row_line_ends, E | exact Hl]|].
      intros H. rewrite (Hn H). reflexivity.
    + exists []. repeat split; [constructor | discriminate].
Qed.

Lemma length_itertuples fr : length (itertuples fr) = index_len fr.
Proof. unfold itertuples. rewrite length_fmap. apply length_seq. Qed.

Lemma csv_text_lines fr :
  exists lines,
    (csv_text fr).1 = csv_header ++ concat lines
    /\ Forall (fun l => exists body, l = body ++ [LF]) lines
    /\ ((csv_text fr).2 = Return tt -> length lines = index_len fr).
Proof.
  unfold csv_text. destruct (getitem_list fr cols) as [sel|e] eqn:E.
  - destruct (rows_text_lines (itertuples sel)) as (lines & Ht & Hl & Hn).
    exists lines. cbn [fst snd]. rewrite Ht, header_csv_header. split; [reflexivity|].
    split; [exact Hl|]. intros H. rewrite (Hn H), length_itertuples.
    apply index_len_getitem_list in E. exact E.
  - exists []. cbn [fst snd concat]. rewrite app_nil_r, header_csv_header.
    repeat split; [constructor | discriminate].
Qed.

Lemma process_frame_cases fr :
  process_frame fr = ((false, 0), None)
  \/ (exists lines,
        process_frame fr = ((false, 0), Some (csv_header ++ concat lines))
        /\ Forall (fun l => exists body, l = body ++ [LF]) lines)
  \/ (exists n lines,
        process_frame fr = ((true, S n), Some (csv_header ++ concat lines))
        /\ Forall (fun l => exists body, l = body ++ [LF]) lines
        /\ length lines = S n).
Proof.
  unfold process_frame. destruct (finalize_frame fr) as [out|e]; [|left; reflexivity].
  destruct (empty out) eqn:Hempty; [left; reflexivity|]. right.
  destruct (csv_text_lines out) as (lines & Ht & Hl & Hn).
  destruct (csv_text out).2 as [[]|e] eqn:E.
  - right. unfold empty in Hempty. apply orb_false_iff in Hempty as [Hrows _].
    apply Nat.eqb_neq in Hrows.
    destruct (index_len out) as [|n] eqn:Hlen; [congruence|].
    exists n, lines. rewrite Ht. split; [reflexivity|]. split; [exact Hl|].
    apply Hn. reflexivity.
  - left. exists lines. rewrite Ht. split; [reflexivity | exact Hl].
Qed.

(** X4. [process_csv_file] never raises, whatever the world and the paths,
    and it touches no file but the output file.  Either it reports
    [(False, 0)] and changes no file; or it reports [(False, 0)] and leaves
    an output file with the header and the lines written before a row
    failed; or it reports [(True, n)] with [n >= 1] and leaves the header
    followed by exactly [n] lines, each ended by a newline.  Objects and log
    lines are only ever added. *)
Theorem process_csv_file_contained (input_path output_path : str) (w : world) :
  exists r w',
    process_csv_file input_path output_path w = (Return r, w')
    /\ heap w `prefix_of` heap w'
    /\ log w `prefix_of` log w'
    /\ ((r = (false, 0) /\ files w' = files w)
        \/ (exists lines,
              r = (false, 0)
              /\ files w' = <[output_path := csv_header ++ concat lines]> (files w)
              /\ Forall (fun l => exists body, l = body ++ [LF]) lines)
        \/ (exists n lines,
              r = (true, S n)
              /\ files w' = <[output_path := csv_header ++ concat lines]> (files w)
              /\ Forall (fun l => exists body, l = body ++ [LF]) lines
              /\ length lines = S n)).
Proof.
  destruct w as [h lg fs].
  destruct (process_csv_file_run input_path output_path h lg fs) as (hs & ls & Hrun).
  rewrite Hrun. eexists _, _. split; [reflexivity|]. cbn [heap log files].
  split; [apply prefix_app_r; reflexivity|]. split; [apply prefix_app_r; reflexivity|].
  unfold process_source.
  destruct (fs !! input_path) as [text|]; [|left; split; reflexivity].
  destruct (read_csv lib text) as [fr|]; [|left; split; reflexivity].
  destruct (process_frame_cases fr)
    as [-> | [(lines & -> & Hl) | (n & lines & -> & Hl & Hn)]].
  - left. split; reflexivity.
  - right. left. exists lines. repeat split. exact Hl.
  - right. right. exists n, lines. repeat split; assumption.
Qed.

(** X5. An input that is not there, or that the reader refuses, is a
    failure of that file and nothing more: [process_csv_file] catches the
    exception, logs it as an error after the line that announces the file,
    returns [(False, 0)], and leaves the heap and every file as they were. *)
Theorem process_unreadable_input (input_path output_path : str) (w : world) :
  match files w !! input_path with
  | Some text => read_csv lib text = None
  | None => True
  end ->
  process_csv_file input_path output_path w =
    (Return (false, 0),
     {| heap := heap w;
        log := log w ++
               [ (INFO, Processing input_path);
                 (ERROR, ErrorProcessing input_path
                           match files w !! input_path with
                           | Some _ => ParserError
                           | None => FileNotFoundError
                           end) ];
        files := files w |}).
Proof.
  intros Hin. destruct w as [h lg fs]. cbn [heap log files] in *.
  unfold process_csv_file, try_except.
  erewrite bind_return by reflexivity.
  unfold bind at 1. unfold pd_read_csv. cbn [heap log files].
  destruct (fs !! input_path) as [text|].
  - rewrite Hin. run_unfold. cbn [heap log files]. rewrite <- app_assoc. reflexivity.
  - run_unfold. cbn [heap log files]. rewrite <- app_assoc. reflexivity.
Qed.
(** ** The pipeline on a well-formed input *)

Lemma finalize_frame_six fr sy sc ss sf sd sn :
  getitem (rename column_mapping fr) (py "year") = Return (ItemSeries sy) ->
  getitem (rename column_mapping fr) (py "county") = Return (ItemSeries sc) ->
  getitem (rename column_mapping fr) (py "state_name") = Return (ItemSeries ss) ->
  getitem (rename column_mapping fr) (py "county_fips") = Return (ItemSeries sf) ->
  getitem (rename column_mapping fr) (py "502_investment_dollars") = Return (ItemSeries sd) ->
  getitem (rename column_mapping fr) (py "number_of_502_investment") = Return (ItemSeries sn) ->
  finalize_frame fr =
    and_then (dollars_coercion (ItemSeries sd)) (fun sd' =>
    and_then (int64_coercion (ItemSeries sn)) (fun sn' =>
    Return (six_columns (index_len fr) sy sc ss
              (Object ((fun t => Str (fips_digits t)) <$> Series_texts sf)) sd' sn'))).
Proof.
  intros Hy Hc Hs Hf Hd Hn.
  destruct (getitem_list_six _ _ _ _ _ _ _ Hy Hc Hs Hf Hd Hn) as [Hsel Hmiss].
  unfold finalize_frame, missing_columns. rewrite Hmiss, Hsel.
  rewrite bool_decide_eq_true_2 by reflexivity. cbn [and_then rename index_len].
  rewrite coerce_frame_six, county_fips_coercion_series. reflexivity.
Qed.

Lemma records_of_columns n (ys cs ss fs : list obj) (ds ns : list Z) :
  length ys = n -> length cs = n -> length ss = n -> length fs = n ->
  length ds = n -> length ns = n ->
  exists rs,
    six_columns n (Object ys) (Object cs) (Object ss) (Object fs) (Int64 ds) (Int64 ns)
    = frame_of_records rs
    /\ rec_year <$> rs = ys /\ rec_county <$> rs = cs /\ rec_state_name <$> rs = ss
    /\ rec_county_fips <$> rs = fs /\ rec_dollars <$> rs = ds /\ rec_count <$> rs = ns.
Proof.
  revert ys cs ss fs ds ns. induction n as [|n IH]; intros ys cs ss fs ds ns Hy Hc Hs Hf Hd Hn.
  - destruct ys, cs, ss, fs, ds, ns; try discriminate. exists []. repeat split.
  - destruct ys as [|y ys], cs as [|c cs], ss as [|s ss], fs as [|f fs],
      ds as [|d ds], ns as [|k ns]; try discriminate.
    cbn [length] in *.
    destruct (IH ys cs ss fs ds ns) as (rs & E & Ey & Ec & Es & Ef & Ed & En); try lia.
    exists ({| rec_year := y; rec_county := c; rec_state_name := s; rec_county_fips := f;
               rec_dollars := d; rec_count := k |} :: rs).
    cbn [fmap list_fmap rec_year rec_county rec_state_name rec_county_fips rec_dollars
         rec_count].
    fold (rec_year <$> rs) (rec_county <$> rs) (rec_state_name <$> rs)
         (rec_county_fips <$> rs) (rec_dollars <$> rs) (rec_count <$> rs).
    rewrite Ey, Ec, Es, Ef, Ed, En. split; [|repeat split].
    unfold frame_of_records, six_columns. cbn [length fmap list_fmap].
    fold (rec_year <$> rs) (rec_county <$> rs) (rec_state_name <$> rs)
         (rec_county_fips <$> rs) (rec_dollars <$> rs) (rec_count <$> rs).
    rewrite Ey, Ec, Es, Ef, Ed, En.
    assert (Hlen : length rs = n).
    { rewrite <- Ey in Hy. rewrite length_fmap in Hy. lia. }
    rewrite Hlen. reflexivity.
Qed.

(** X6. The pipeline from end to end on a well-formed file.  When the file
    reads as a frame with at least one row in which, after the renaming,
    each required label names one column of texts, and no dollar or count
    value reads as an infinite number, [process_csv_file] returns
    [(True, n)] for the [n] rows of the file and leaves in the output file
    the header and the lines of [n] finalized records: year, county and
    state as read, the first digit run of each county_fips, and the two
    amounts as integers (the value of a short integer literal once [,] and
    [$] are removed from the dollars; 0 where the text holds no digit). *)
Theorem process_csv_file_finalized
    (w : world) (input_path output_path text : str) (fr : DataFrame)
    (ys cs ss fs ds ns : list obj) :
  files w !! input_path = Some text ->
  read_csv lib text = Some fr ->
  0 < index_len fr ->
  getitem (rename column_mapping fr) (py "year") = Return (ItemSeries (Object ys)) ->
  getitem (rename column_mapping fr) (py "county") = Return (ItemSeries (Object cs)) ->
  getitem (rename column_mapping fr) (py "state_name") = Return (ItemSeries (Object ss)) ->
  getitem (rename column_mapping fr) (py "county_fips") = Return (ItemSeries (Object fs)) ->
  getitem (rename column_mapping fr) (py "502_investment_dollars")
    = Return (ItemSeries (Object ds)) ->
  getitem (rename column_mapping fr) (py "number_of_502_investment")
    = Return (ItemSeries (Object ns)) ->
  length ys = index_len fr -> length cs = index_len fr -> length ss = index_len fr ->
  length fs = index_len fr -> length ds = index_len fr -> length ns = index_len fr ->
  Forall (fun o => reads_finite (convert_text (strip (obj_text o)))) ds ->
  Forall (fun o => reads_finite (convert_obj o)) ns ->
  exists rs w',
    process_csv_file input_path output_path w = (Return (true, index_len fr), w')
    /\ files w' = <[output_path := csv_header ++ concat (csv_line <$> rs)]> (files w)
    /\ length rs = index_len fr
    /\ rec_year <$> rs = ys
    /\ rec_county <$> rs = cs
    /\ rec_state_name <$> rs = ss
    /\ rec_county_fips <$> rs = (fun o => Str (fips_digits (obj_text o))) <$> fs
    /\ Forall2 (fun o k => text_int64 (strip (obj_text o)) k) ds (rec_dollars <$> rs)
    /\ Forall2 (fun o k => match o with
                           | Str t => text_int64 t k
                           | NaN => k = 0%Z
                           end) ns (rec_count <$> rs).
Proof.
  intros Hin Hread Hrows Hy Hc Hs Hf Hd Hn Ly Lc Ls Lf Ld Ln Hfin_d Hfin_n.
  destruct w as [h lg fs0]. cbn [files] in Hin.
  destruct (process_csv_file_run input_path output_path h lg fs0) as (hs & ls & Hrun).
  rewrite Hrun, Hin. cbn [process_source]. rewrite Hread.
  pose proof (finalize_frame_six _ _ _ _ _ _ _ Hy Hc Hs Hf Hd Hn) as Hframe.
  unfold dollars_coercion in Hframe. rewrite strip_punctuation_series in Hframe.
  cbn [and_then Series_texts] in Hframe.
  unfold int64_coercion, to_numeric in Hframe. cbn [and_then] in Hframe.
  destruct (astype_int64_finite
              (convert_obj <$> ((fun t => Str (strip t)) <$> (obj_text <$> ds))))
    as (dks & Ed & Hlen_d).
  { rewrite !Forall_fmap. exact Hfin_d. }
  destruct (astype_int64_finite (convert_obj <$> ns)) as (nks & En & Hlen_n).
  { rewrite Forall_fmap. exact Hfin_n. }
  rewrite Ed in Hframe. cbn [and_then] in Hframe. rewrite En in Hframe.
  cbn [and_then] in Hframe.
  rewrite !length_fmap in Hlen_d. rewrite length_fmap in Hlen_n.
  destruct (records_of_columns (index_len fr) ys cs ss
              ((fun t => Str (fips_digits t)) <$> (obj_text <$> fs)) dks nks)
    as (rs & Erec & Ey & Ec & Es & Ef & Edk & Enk);
    rewrite ?length_fmap; try congruence.
  rewrite Erec in Hframe.
  assert (Hlen : length rs = index_len fr).
  { rewrite <- Ey in Ly. rewrite length_fmap in Ly. exact Ly. }
  unfold process_frame. rewrite Hframe.
  assert (Hne : empty (frame_of_records rs) = false).
  { unfold empty, frame_of_records, six_columns. cbn [index_len data length].
    rewrite Hlen. apply orb_false_iff. split; [apply Nat.eqb_neq; lia | reflexivity]. }
  rewrite Hne, csv_text_records. cbn [fst snd written].
  exists rs. eexists. split.
  { unfold frame_of_records, six_columns. cbn [index_len]. rewrite Hlen. reflexivity. }
  cbn [files]. split; [reflexivity|]. split; [exact Hlen|].
  split; [exact Ey|]. split; [exact Ec|]. split; [exact Es|]. split.
  { rewrite Ef, <- list_fmap_compose. reflexivity. }
  split.
  - rewrite Edk. apply astype_int64_cells in Ed. rewrite !Forall2_fmap_l in Ed.
    eapply Forall2_impl; [exact Ed|]. intros o k. cbn. apply cell_int64_text.
  - rewrite Enk. apply astype_int64_cells in En. rewrite Forall2_fmap_l in En.
    eapply Forall2_impl; [exact En|]. intros [t|] k; cbn.
    + apply cell_int64_text.
    + intros H; exact H.
Qed.
(** ** Repeated labels *)

Lemma filter_label_fmap (k : str) (f : str * Series -> str * Series) (l : list (str * Series)) :
  (forall c, (f c).1 = c.1) ->
  length (filter (fun c => c.1 = k) (f <$> l)) = length (filter (fun c => c.1 = k) l).
Proof.
  intros Hf. induction l as [|c l IH]; [reflexivity|].
  cbn [fmap list_fmap]. rewrite !filter_cons, Hf.
  destruct (decide (c.1 = k)); cbn [length]; rewrite IH; reflexivity.
Qed.

Lemma columns_named_setitem fr key s x k :
  getitem fr key = Return x ->
  length (columns_named k (setitem fr key s)) = length (columns_named k fr).
Proof.
  intros Hx. unfold columns_named, setitem. cbn [data].
  rewrite bool_decide_eq_true_2.
  - apply filter_label_fmap. intros c. destruct (bool_decide (c.1 = key)); reflexivity.
  - unfold getitem in Hx. destruct (columns_named key fr) as [|c cs] eqn:E; [discriminate|].
    eapply columns_named_label, E.
Qed.

Lemma getitem_repeated fr k :
  1 < length (columns_named k fr) -> exists d, getitem fr k = Return (ItemFrame d).
Proof.
  unfold getitem. destruct (columns_named k fr) as [|c [|c' cs]]; cbn [length]; try lia.
  intros _. eexists. reflexivity.
Qed.

Lemma and_then_raises {A B} (o : outcome A) (k : A -> outcome B) :
  (forall a, o = Return a -> exists e, k a = Raise e) -> exists e, and_then o k = Raise e.
Proof.
  intros H. destruct o as [a|e]; cbn [and_then]; [apply H; reflexivity | eexists; reflexivity].
Qed.

Lemma coerce_frame_repeated fr k :
  k ∈ [py "county_fips"; py "502_investment_dollars"; py "number_of_502_investment"] ->
  1 < length (columns_named k fr) ->
  exists e, coerce_frame fr = Raise e.
Proof.
  intros Hk Hrep. unfold coerce_frame.
  apply and_then_raises. intros x1 H1.
  destruct (decide (k = py "county_fips")) as [->|N1].
  { destruct (getitem_repeated _ _ Hrep) as (d & Hd). rewrite Hd in H1.
    injection H1 as <-. eexists. reflexivity. }
  apply and_then_raises. intros s1 _.
  rewrite <- (columns_named_setitem _ _ s1 _ k H1) in Hrep.
  apply and_then_raises. intros x2 H2.
  destruct (decide (k = py "502_investment_dollars")) as [->|N2].
  { destruct (getitem_repeated _ _ Hrep) as (d & Hd). rewrite Hd in H2.
    injection H2 as <-. eexists. reflexivity. }
  apply and_then_raises. intros s2 _.
  rewrite <- (columns_named_setitem _ _ s2 _ k H2) in Hrep.
  apply and_then_raises. intros x3 H3.
  apply and_then_raises. intros s3 _.
  rewrite <- (columns_named_setitem _ _ s3 _ k H3) in Hrep.
  apply and_then_raises. intros x4 H4.
  assert (k = py "number_of_502_investment") as ->.
  { rewrite !elem_of_cons in Hk. destruct Hk as [?|[?|[?|Hk]]]; try congruence.
    inversion Hk. }
  destruct (getitem_repeated _ _ Hrep) as (d & Hd). rewrite Hd in H4.
  injection H4 as <-. eexists. reflexivity.
Qed.

Lemma filter_columns_named (k k0 : str) fr :
  filter (fun c => c.1 = k) (columns_named k0 fr) =
    if decide (k = k0) then columns_named k0 fr else [].
Proof.
  unfold columns_named. induction (data fr) as [|c l IH].
  - destruct (decide (k = k0)); reflexivity.
  - rewrite (filter_cons (fun c => c.1 = k0)).
    destruct (decide (c.1 = k0)) as [Hc|Hc].
    + rewrite filter_cons, IH.
      destruct (decide (c.1 = k)) as [Hk|Hk], (decide (k = k0)); congruence.
    + exact IH.
Qed.

Lemma select_other (keys : list str) fr cs (k : str) :
  select keys fr = Return cs -> k ∉ keys -> filter (fun c => c.1 = k) cs = [].
Proof.
  revert cs. induction keys as [|k0 ks IH]; intros cs Hsel Hk; cbn [select] in Hsel.
  - injection Hsel as <-. reflexivity.
  - apply not_elem_of_cons in Hk as [Hne Hk].
    destruct (columns_named k0 fr) as [|c0 cs0] eqn:E; [discriminate|].
    destruct (select ks fr) as [rest|]; [|discriminate]. injection Hsel as <-.
    change (c0 :: cs0 ++ rest) with ((c0 :: cs0) ++ rest).
    rewrite filter_app, (IH rest eq_refl Hk), app_nil_r, <- E, filter_columns_named.
    destruct (decide (k = k0)); [contradiction | reflexivity].
Qed.

(** [df[keys]] keeps every column of a label that [keys] names once. *)
Lemma select_columns_named (keys : list str) fr cs (k : str) :
  select keys fr = Return cs -> NoDup keys -> k ∈ keys ->
  filter (fun c => c.1 = k) cs = columns_named k fr.
Proof.
  revert cs. induction keys as [|k0 ks IH]; intros cs Hsel Hnd Hk; [inversion Hk|].
  cbn [select] in Hsel. apply NoDup_cons in Hnd as [Hk0 Hnd].
  destruct (columns_named k0 fr) as [|c0 cs0] eqn:E; [discriminate|].
  destruct (select ks fr) as [rest|] eqn:Hrest; [|discriminate]. injection Hsel as <-.
  change (c0 :: cs0 ++ rest) with ((c0 :: cs0) ++ rest).
  rewrite filter_app, <- E, filter_columns_named.
  destruct (decide (k = k0)) as [->|Hne].
  - rewrite (select_other ks fr rest k0 Hrest Hk0). apply app_nil_r.
  - apply elem_of_cons in Hk as [?|Hk]; [contradiction|].
    rewrite (IH rest eq_refl Hnd Hk). reflexivity.
Qed.

Lemma finalize_frame_repeated fr k :
  k ∈ [py "county_fips"; py "502_investment_dollars"; py "number_of_502_investment"] ->
  1 < length (columns_named k (rename column_mapping fr)) ->
  finalize_frame fr = Return empty_frame \/ exists e, finalize_frame fr = Raise e.
Proof.
  intros Hk Hrep. unfold finalize_frame.
  destruct (bool_decide (missing_columns fr = [])); [|left; reflexivity]. right.
  apply and_then_raises. intros sel Hsel.
  apply (coerce_frame_repeated sel k Hk).
  unfold getitem_list in Hsel.
  destruct (select required_columns (rename column_mapping fr)) as [cs|] eqn:E;
    [|discriminate].
  injection Hsel as <-. unfold columns_named at 1. cbn [data].
  rewrite (select_columns_named _ _ _ k E); [exact Hrep | |].
  - apply (bool_decide_unpack _). vm_compute. exact I.
  - rewrite !elem_of_cons in Hk. unfold required_columns. rewrite !elem_of_cons.
    tauto.
Qed.

(** X7. A label that is coerced must not repeat.  When [county_fips],
    [502_investment_dollars] or [number_of_502_investment] names more than
    one column after the renaming (a file with both [investment_dollars]
    and [502_investment_dollars], say), [df[label]] is a frame and not a
    column, the coercion raises, and [process_csv_file] reports the file
    as failed without opening the output file.  (A repeated [year] goes
    further: it fails in the writer, after the header is written.) *)
Theorem process_repeated_label
    (w : world) (input_path output_path text : str) (fr : DataFrame) (k : str) :
  files w !! input_path = Some text ->
  read_csv lib text = Some fr ->
  k ∈ [py "county_fips"; py "502_investment_dollars"; py "number_of_502_investment"] ->
  1 < length (columns_named k (rename column_mapping fr)) ->
  exists w',
    process_csv_file input_path output_path w = (Return (false, 0), w')
    /\ files w' = files w.
Proof.
  intros Hin Hread Hk Hrep. destruct w as [h lg fs]. cbn [files] in Hin.
  destruct (process_csv_file_run input_path output_path h lg fs) as (hs & ls & Hrun).
  rewrite Hrun, Hin. cbn [process_source]. rewrite Hread. unfold process_frame.
  destruct (finalize_frame_repeated fr k Hk Hrep) as [-> | (e & ->)];
    eexists; split; reflexivity.
Qed.

(** ** A repeated [year] *)

Lemma filter_label_fmap_eq (k : str) (f : str * Series -> str * Series)
    (l : list (str * Series)) :
  (forall c, (f c).1 = c.1) ->
  filter (fun c => c.1 = k) (f <$> l) = f <$> filter (fun c => c.1 = k) l.
Proof.
  intros Hf. induction l as [|c l IH]; [reflexivity|].
  cbn [fmap list_fmap]. rewrite !filter_cons, Hf.
  destruct (decide (c.1 = k)); cbn [fmap list_fmap]; rewrite IH; reflexivity.
Qed.

(** [df[key] = s] leaves the columns of every other label as they are. *)
Lemma columns_named_setitem_other fr (key k : str) s :
  k <> key -> columns_named k (setitem fr key s) = columns_named k fr.
Proof.
  intros Hne. unfold columns_named, setitem. cbn [data].
  destruct (bool_decide (key ∈ labels fr)).
  - rewrite filter_label_fmap_eq
      by (intros c; destruct (bool_decide (c.1 = key)); reflexivity).
    etrans; [|apply list_fmap_id]. apply list_fmap_ext. intros i c Hc.
    apply list_elem_of_lookup_2, list_elem_of_filter in Hc as [Hk _].
    rewrite bool_decide_eq_false_2 by congruence. reflexivity.
  - rewrite filter_app, filter_cons_False by (cbn; congruence).
    rewrite filter_nil. apply app_nil_r.
Qed.

(** [df[key] = s] replaces the one column that [key] names. *)
Lemma columns_named_setitem_same fr (key : str) x s :
  columns_named key fr = [(key, x)] -> columns_named key (setitem fr key s) = [(key, s)].
Proof.
  intros Hcol. unfold columns_named, setitem in *. cbn [data].
  rewrite bool_decide_eq_true_2 by (eapply columns_named_label; exact Hcol).
  rewrite filter_label_fmap_eq
    by (intros c; destruct (bool_decide (c.1 = key)); reflexivity).
  rewrite Hcol. cbn [fmap list_fmap fst]. rewrite bool_decide_eq_true_2 by reflexivity.
  reflexivity.
Qed.

Lemma getitem_column fr (key : str) x :
  columns_named key fr = [(key, x)] -> getitem fr key = Return (ItemSeries x).
Proof. intros H. unfold getitem. rewrite H. reflexivity. Qed.

Ltac labels_differ := apply (bool_decide_unpack _); vm_compute; exact I.

(** The coercions succeed on every frame in which each coerced label names
    one column, whatever its other columns are. *)
Lemma coerce_frame_unique fr sf sd sn sd' sn' :
  columns_named (py "county_fips") fr = [(py "county_fips", sf)] ->
  columns_named (py "502_investment_dollars") fr = [(py "502_investment_dollars", sd)] ->
  columns_named (py "number_of_502_investment") fr
    = [(py "number_of_502_investment", sn)] ->
  dollars_coercion (ItemSeries sd) = Return sd' ->
  int64_coercion (ItemSeries sn) = Return sn' ->
  exists out, coerce_frame fr = Return out.
Proof.
  intros Hf Hd Hn Ed En. unfold coerce_frame.
  rewrite (getitem_column _ _ _ Hf). cbn [and_then].
  rewrite county_fips_coercion_series. cbn [and_then].
  set (fr1 := setitem fr (py "county_fips") _).
  assert (Hd1 : columns_named (py "502_investment_dollars") fr1
                = [(py "502_investment_dollars", sd)]).
  { unfold fr1. rewrite columns_named_setitem_other by labels_differ. exact Hd. }
  assert (Hn1 : columns_named (py "number_of_502_investment") fr1
                = [(py "number_of_502_investment", sn)]).
  { unfold fr1. rewrite columns_named_setitem_other by labels_differ. exact Hn. }
  rewrite (getitem_column _ _ _ Hd1). cbn [and_then].
  unfold dollars_coercion in Ed.
  destruct (strip_punctuation (ItemSeries sd)) as [s2|]; [|discriminate].
  cbn [and_then] in Ed |- *.
  rewrite (getitem_column _ _ _ (columns_named_setitem_same _ _ _ s2 Hd1)).
  cbn [and_then]. rewrite Ed. cbn [and_then].
  rewrite (getitem_column _ (py "number_of_502_investment") sn).
  - cbn [and_then]. rewrite En. cbn [and_then]. eexists. reflexivity.
  - rewrite !columns_named_setitem_other by labels_differ. exact Hn1.
Qed.

Lemma coerce_frame_columns fr out (k : str) :
  coerce_frame fr = Return out ->
  length (columns_named k out) = length (columns_named k fr).
Proof.
  unfold coerce_frame.
  repeat match goal with
         | |- and_then ?o _ = _ -> _ =>
             let H := fresh "H" in
             destruct o eqn:H; cbn [and_then]; [|discriminate]
         end.
  intros [= <-].
  repeat (erewrite columns_named_setitem by eassumption). reflexivity.
Qed.

Lemma select_total (keys : list str) fr :
  Forall (fun k => columns_named k fr <> []) keys -> exists cs, select keys fr = Return cs.
Proof.
  induction 1 as [|k ks Hk _ (rest & IH)]; [exists []; reflexivity|].
  cbn [select]. rewrite IH.
  destruct (columns_named k fr) as [|c cs]; [contradiction|]. eexists. reflexivity.
Qed.

Lemma select_at_least (keys : list str) fr cs :
  select keys fr = Return cs -> length keys <= length cs.
Proof.
  revert cs. induction keys as [|k ks IH]; intros cs Hsel; cbn [select] in Hsel.
  - cbn. lia.
  - destruct (columns_named k fr) as [|c0 cs0]; [discriminate|].
    destruct (select ks fr) as [rest|]; [|discriminate]. injection Hsel as <-.
    specialize (IH rest eq_refl). cbn [length]. rewrite length_app. lia.
Qed.

(** [df[keys]] has a column more than [keys] has labels for each further
    column a label names. *)
Lemma select_length (keys : list str) fr cs (k : str) :
  select keys fr = Return cs -> k ∈ keys ->
  length keys + length (columns_named k fr) <= length cs + 1.
Proof.
  revert cs. induction keys as [|k0 ks IH]; intros cs Hsel Hk; [inversion Hk|].
  cbn [select] in Hsel.
  destruct (columns_named k0 fr) as [|c0 cs0] eqn:E; [discriminate|].
  destruct (select ks fr) as [rest|] eqn:Hrest; [|discriminate]. injection Hsel as <-.
  cbn [length]. rewrite length_app.
  apply elem_of_cons in Hk as [->|Hk].
  - rewrite E. apply select_at_least in Hrest. cbn [length]. lia.
  - specialize (IH rest eq_refl Hk). lia.
Qed.

Lemma row_line_not_six (row : list value) : length row <> 6 -> row_line row = Raise ValueError.
Proof.
  destruct row as [|year [|county [|state_name [|county_fips [|dollars [|n_loans [|? ?]]]]]]];
    cbn [length]; try reflexivity. lia.
Qed.

(** When [year] names more than one column after the renaming and the
    finalizer returns a frame that is not empty, the writer fails at its
    first row, and the file keeps the header. *)
Lemma process_frame_year_twice fr out :
  1 < length (columns_named (py "year") (rename column_mapping fr)) ->
  finalize_frame fr = Return out ->
  empty out = false ->
  process_frame fr = ((false, 0), Some csv_header).
Proof.
  intros Hyear Hfin Hempty.
  assert (Hout : 1 < length (columns_named (py "year") out)).
  { unfold finalize_frame in Hfin.
    destruct (bool_decide (missing_columns fr = []));
      [|injection Hfin as <-; discriminate Hempty].
    unfold and_then, getitem_list in Hfin.
    destruct (select required_columns (rename column_mapping fr)) as [cs|] eqn:Hsel;
      [|discriminate].
    rewrite (coerce_frame_columns _ _ _ Hfin). unfold columns_named at 1. cbn [data].
    rewrite (select_columns_named _ _ _ (py "year") Hsel); [exact Hyear | |].
    - apply (bool_decide_unpack _). vm_compute. exact I.
    - apply list_elem_of_here. }
  unfold process_frame. rewrite Hfin, Hempty. unfold csv_text, getitem_list.
  destruct (select cols out) as [cs|e] eqn:Hsel; cbn [fst snd].
  2: { rewrite header_csv_header. reflexivity. }
  apply (select_length _ _ _ (py "year")) in Hsel; [|apply list_elem_of_here].
  change (length cols) with 6 in Hsel.
  unfold empty in Hempty. apply orb_false_iff in Hempty as [Hrows _].
  apply Nat.eqb_neq in Hrows.
  unfold itertuples. cbn [index_len data].
  destruct (index_len out) as [|n]; [congruence|].
  cbn [seq fmap list_fmap rows_text].
  rewrite row_line_not_six by (rewrite length_fmap; lia).
  cbn [fst snd]. rewrite app_nil_r, header_csv_header. reflexivity.
Qed.

Lemma present_not_missing (keys : list str) fr :
  Forall (fun k => columns_named k fr <> []) keys ->
  filter (fun c => c ∉ labels fr) keys = [].
Proof.
  induction 1 as [|k ks Hk _ IH]; [reflexivity|].
  rewrite filter_cons_False; [exact IH|].
  intros Hmiss. apply Hmiss.
  destruct (columns_named k fr) as [|c cs] eqn:E; [contradiction|].
  eapply columns_named_label, E.
Qed.

(** X3. A file that has [fiscal_year] next to [year] is reported as failed,
    and yet an output file is left behind.  When the file reads as a frame
    with at least one row in which, after the renaming, [year] names more
    than one column, each of the other five required labels names one
    column, and no dollar or count value reads as an infinite number, the
    finalizer returns a frame with more than six columns; the writer has
    written the header when its first row fails to unpack into six names,
    so [process_csv_file] returns [(False, 0)] and the output file holds
    the header line only. *)
Theorem process_year_twice_leaves_header
    (w : world) (input_path output_path text : str) (fr : DataFrame)
    (county state_name county_fips dollars num : Series) :
  files w !! input_path = Some text ->
  read_csv lib text = Some fr ->
  0 < index_len fr ->
  1 < length (columns_named (py "year") (rename column_mapping fr)) ->
  getitem (rename column_mapping fr) (py "county") = Return (ItemSeries county) ->
  getitem (rename column_mapping fr) (py "state_name") = Return (ItemSeries state_name) ->
  getitem (rename column_mapping fr) (py "county_fips") = Return (ItemSeries county_fips) ->
  getitem (rename column_mapping fr) (py "502_investment_dollars")
    = Return (ItemSeries dollars) ->
  getitem (rename column_mapping fr) (py "number_of_502_investment")
    = Return (ItemSeries num) ->
  Forall (fun t => reads_finite (convert_text (strip t))) (Series_texts dollars) ->
  match num with
  | Object l => Forall (fun o => reads_finite (convert_obj o)) l
  | Int64 _ => True
  end ->
  exists w',
    process_csv_file input_path output_path w = (Return (false, 0), w')
    /\ files w' = <[output_path := csv_header]> (files w).
Proof.
  intros Hin Hread Hrows Hyear Hc Hs Hf Hd Hn Hfin_d Hfin_n.
  destruct w as [h lg fs]. cbn [files] in Hin.
  destruct (process_csv_file_run input_path output_path h lg fs) as (hs & ls & Hrun).
  rewrite Hrun, Hin. cbn [process_source]. rewrite Hread.
  apply getitem_series_inv in Hc, Hs, Hf, Hd, Hn.
  set (R := rename column_mapping fr) in *.
  assert (Hpresent : Forall (fun k => columns_named k R <> []) required_columns).
  { unfold required_columns.
    repeat match goal with |- Forall _ _ => constructor end;
      try (intros E; rewrite E in *; discriminate).
    intros E. rewrite E in Hyear. cbn in Hyear. lia. }
  assert (Hmiss : missing_columns fr = []) by apply present_not_missing, Hpresent.
  destruct (select_total _ _ Hpresent) as (cs & Hsel).
  assert (Hcol : forall k, k ∈ required_columns ->
            columns_named k {| index_len := index_len R; data := cs |} = columns_named k R).
  { intros k Hk. unfold columns_named at 1. cbn [data].
    apply (select_columns_named _ _ _ k Hsel); [|exact Hk].
    apply (bool_decide_unpack _). vm_compute. exact I. }
  assert (Ed : exists ds, dollars_coercion (ItemSeries dollars) = Return (Int64 ds)).
  { unfold dollars_coercion. rewrite strip_punctuation_series. cbn [and_then].
    unfold int64_coercion, to_numeric. cbn [and_then].
    destruct (astype_int64_finite
                (convert_obj <$> ((fun t => Str (strip t)) <$> Series_texts dollars)))
      as (ds & E & _).
    { rewrite !Forall_fmap. exact Hfin_d. }
    exists ds. exact E. }
  assert (En : exists ns, int64_coercion (ItemSeries num) = Return (Int64 ns)).
  { unfold int64_coercion, to_numeric. destruct num as [l|l]; cbn [and_then].
    - destruct (astype_int64_finite (convert_obj <$> l)) as (ns & E & _).
      { rewrite Forall_fmap. exact Hfin_n. }
      exists ns. exact E.
    - exists l. reflexivity. }
  destruct Ed as (ds & Ed), En as (ns & En).
  destruct (coerce_frame_unique {| index_len := index_len R; data := cs |}
              county_fips dollars num (Int64 ds) (Int64 ns)) as (out & Hout);
    try assumption;
    try (rewrite Hcol by (apply (bool_decide_unpack _); vm_compute; exact I); assumption).
  assert (Hfin : finalize_frame fr = Return out).
  { unfold finalize_frame. rewrite bool_decide_eq_true_2 by exact Hmiss.
    unfold getitem_list. fold R. rewrite Hsel. exact Hout. }
  assert (Hempty : empty out = false).
  { unfold empty. apply orb_false_iff. split; apply Nat.eqb_neq.
    - rewrite (index_len_coerce_frame _ _ Hout). cbn [index_len rename R]. lia.
    - pose proof (coerce_frame_columns _ _ (py "year") Hout) as Hlen.
      rewrite Hcol in Hlen by apply list_elem_of_here.
      intros E. apply length_zero_iff_nil in E.
      unfold columns_named at 1 in Hlen. rewrite E, filter_nil in Hlen.
      cbn [length] in Hlen. lia. }
  rewrite (process_frame_year_twice fr out Hyear Hfin Hempty).
  eexists. split; reflexivity.
Qed.


(** ** The FIPS digits *)

Lemma digit_prefix_all (s : str) : Forall (fun c => is_digit c = true) (digit_prefix s).
Proof.
  induction s as [|c s IH]; cbn [digit_prefix]; [constructor|].
  destruct (is_digit c) eqn:E; constructor; assumption.
Qed.

Lemma digit_prefix_digits (s : str) :
  Forall (fun c => is_digit c = true) s -> digit_prefix s = s.
Proof.
  induction 1 as [|c s Hc _ IH]; [reflexivity|].
  cbn [digit_prefix]. rewrite Hc, IH. reflexivity.
Qed.

Lemma fips_digits_digits (t : str) :
  Forall (fun c => is_digit c = true) t -> fips_digits t = t.
Proof.
  unfold fips_digits. destruct 1 as [|c s Hc Hs]; [reflexivity|].
  cbn [search_digits]. rewrite Hc. cbn [default]. unfold id. f_equal.
  apply digit_prefix_digits, Hs.
Qed.

Lemma fips_digits_all (t : str) : Forall (fun c => is_digit c = true) (fips_digits t).
Proof.
  unfold fips_digits. induction t as [|c t IH]; cbn [search_digits]; [constructor|].
  destruct (is_digit c) eqn:E; [|exact IH].
  cbn [default]. unfold id. constructor; [exact E | apply digit_prefix_all].
Qed.

(** X8. The [county_fips] coercion is idempotent, on a column of any
    dtype: what it returns holds digit characters only, and coercing that
    again changes nothing. *)
Theorem county_fips_coercion_idempotent (s : Series) :
  exists l,
    county_fips_coercion (ItemSeries s) = Return (Object (Str <$> l))
    /\ Forall (Forall (fun c => is_digit c = true)) l
    /\ county_fips_coercion (ItemSeries (Object (Str <$> l))) = Return (Object (Str <$> l)).
Proof.
  exists (fips_digits <$> Series_texts s).
  rewrite !county_fips_coercion_series, <- !list_fmap_compose. split; [reflexivity|]. split.
  - rewrite Forall_fmap. apply Forall_forall. intros t _. apply fips_digits_all.
  - cbn [Series_texts]. rewrite <- !list_fmap_compose. do 2 f_equal.
    apply list_fmap_ext. intros _ t _. cbn. f_equal.
    apply fips_digits_digits, fips_digits_all.
Qed.

(** ** The writer on other frames *)

Lemma select_missing (keys : list str) fr (c : str) :
  c ∈ keys -> c ∉ labels fr -> select keys fr = Raise KeyError.
Proof.
  intros Hc Hmiss. induction keys as [|k ks IH]; [inversion Hc|].
  cbn [select]. destruct (columns_named k fr) as [|c0 cs0] eqn:E; [reflexivity|].
  apply elem_of_cons in Hc as [->|Hc].
  - exfalso. apply Hmiss. eapply columns_named_label, E.
  - rewrite (IH Hc). reflexivity.
Qed.

(** X9. The writer on a frame that lacks one of the six columns: the
    output file is opened and the header written before [df[cols]] raises
    [KeyError], so the call raises and leaves a file that holds the header
    line only. *)
Theorem write_csv_missing_column
    (w : world) (df : loc) (output_path : str) (fr : DataFrame) (c : str) :
  heap w !! df = Some fr ->
  c ∈ cols ->
  c ∉ labels fr ->
  write_csv_only_county_fips_quoted df output_path w =
    (Raise KeyError,
     {| heap := heap w; log := log w; files := <[output_path := csv_header]> (files w) |}).
Proof.
  intros Hdf Hc Hmiss. destruct w as [h lg fs]. cbn [heap log files] in *.
  rewrite (write_csv_run _ _ _ _ _ _ Hdf). unfold csv_text, getitem_list.
  rewrite (select_missing _ _ _ Hc Hmiss). cbn [fst snd].
  rewrite app_nil_r, header_csv_header. reflexivity.
Qed.

(** X10. The writer escapes nothing: a comma inside a county or state
    name is written as it is.  So two record sets that differ in where a
    name ends leave the same file, and the file does not tell them apart. *)
Theorem write_csv_no_escaping
    (w : world) (df1 df2 : loc) (output_path : str) (before after : list FinalizedRecord)
    (year county_fips : obj) (a b c : str) (dollars n_loans : Z) :
  heap w !! df1 =
    Some (frame_of_records
            (before ++
             {| rec_year := year; rec_county := Str (a ++ [COMMA] ++ b);
                rec_state_name := Str c; rec_county_fips := county_fips;
                rec_dollars := dollars; rec_count := n_loans |} :: after)) ->
  heap w !! df2 =
    Some (frame_of_records
            (before ++
             {| rec_year := year; rec_county := Str a;
                rec_state_name := Str (b ++ [COMMA] ++ c); rec_county_fips := county_fips;
                rec_dollars := dollars; rec_count := n_loans |} :: after)) ->
  (write_csv_only_county_fips_quoted df1 output_path w).1 = Return tt
  /\ (write_csv_only_county_fips_quoted df2 output_path w).1 = Return tt
  /\ files (write_csv_only_county_fips_quoted df1 output_path w).2 =
     files (write_csv_only_county_fips_quoted df2 output_path w).2.
Proof.
  intros H1 H2. destruct w as [h lg fs]. cbn [heap] in H1, H2.
  rewrite (write_csv_run _ _ _ _ _ _ H1), (write_csv_run _ _ _ _ _ _ H2).
  rewrite !csv_text_records. cbn [fst snd files]. split; [reflexivity|].
  split; [reflexivity|]. do 2 f_equal. rewrite !fmap_app, !concat_app.
  f_equal. cbn [fmap list_fmap concat]. f_equal.
  unfold csv_line. cbn [rec_year rec_county rec_state_name rec_county_fips rec_dollars
                        rec_count csv_field].
  rewrite <- !app_assoc. reflexivity.
Qed.
(** ** Printing and reading an integer *)

Lemma uint_digits_ascii (u : Decimal.uint) : forallb ascii_digit (uint_digits u) = true.
Proof. induction u; cbn [uint_digits forallb]; try rewrite IHu; reflexivity. Qed.

Lemma fold_digits_acc (u : Decimal.uint) (acc : positive) :
  fold_left (fun a c => 10 * a + digit_value c)%Z (uint_digits u) (Z.pos acc)
  = Z.pos (Pos.of_uint_acc u acc).
Proof.
  revert acc. induction u; intros acc; cbn [uint_digits fold_left Pos.of_uint_acc];
    [reflexivity|..];
    match goal with
    | |- fold_left _ _ ?z = Z.pos (Pos.of_uint_acc _ ?p) =>
        replace z with (Z.pos p) by (unfold digit_value; lia)
    end; apply IHu.
Qed.

Lemma digits_value_uint (u : Decimal.uint) :
  digits_value (uint_digits u) = Z.of_N (Pos.of_uint u).
Proof.
  unfold digits_value. induction u; cbn [uint_digits fold_left Pos.of_uint];
    [reflexivity | exact IHu | ..];
    match goal with
    | |- fold_left _ _ ?z = Z.of_N (N.pos (Pos.of_uint_acc _ ?p)) =>
        replace z with (Z.pos p) by (unfold digit_value; lia)
    end; apply fold_digits_acc.
Qed.

Lemma fold_digits_lower (ds : str) (acc : Z) :
  forallb ascii_digit ds = true -> (0 <= acc)%Z ->
  (acc * 10 ^ Z.of_nat (length ds)
   <= fold_left (fun a c => 10 * a + digit_value c) ds acc)%Z.
Proof.
  revert acc. induction ds as [|c ds IH]; intros acc Hds Hacc.
  - cbn. lia.
  - cbn [forallb] in Hds. apply andb_true_iff in Hds as [Hc Hds].
    unfold ascii_digit in Hc. apply andb_true_iff in Hc as [H1 H2].
    apply N.leb_le in H1, H2.
    cbn [fold_left length]. rewrite Nat2Z.inj_succ, Z.pow_succ_r by lia.
    etrans; [|apply IH; [exact Hds | unfold digit_value; lia]].
    assert (0 <= 10 ^ Z.of_nat (length ds))%Z by (apply Z.pow_nonneg; lia).
    unfold digit_value. nia.
Qed.

Lemma nzhead_no_zero (u : Decimal.uint) :
  match Decimal.nzhead u with Decimal.D0 _ => False | _ => True end.
Proof. induction u; cbn [Decimal.nzhead]; try exact I. exact IHu. Qed.

(** The decimal form of a positive number starts with a digit that is not
    [0]. *)
Lemma uint_digits_pos (p : positive) :
  exists c ds,
    uint_digits (Pos.to_uint p) = c :: ds
    /\ (49 <= c <= 57)%N
    /\ forallb ascii_digit ds = true.
Proof.
  pose proof (DecimalPos.Unsigned.to_of (Pos.to_uint p)) as H.
  rewrite DecimalPos.Unsigned.of_to in H. cbn [N.to_uint] in H.
  pose proof (DecimalPos.Unsigned.to_uint_nonzero p) as Hnz.
  pose proof (nzhead_no_zero (Pos.to_uint p)) as Hhead.
  unfold Decimal.unorm in H.
  destruct (Decimal.nzhead (Pos.to_uint p)) as [|u|u|u|u|u|u|u|u|u|u] eqn:E;
    try contradiction; try (exfalso; apply Hnz; exact H);
    rewrite H; cbn [uint_digits]; eexists _, _; (split; [reflexivity|]);
    (split; [lia | apply uint_digits_ascii]).
Qed.

Lemma unsigned_short_pos (p : positive) :
  (Z.pos p < 10 ^ 15)%Z ->
  unsigned_short (uint_digits (Pos.to_uint p)) = Some (Z.pos p).
Proof.
  intros Hp.
  pose proof (digits_value_uint (Pos.to_uint p)) as Hv.
  rewrite DecimalPos.Unsigned.of_to in Hv. cbn [Z.of_N] in Hv.
  destruct (uint_digits_pos p) as (c & ds & E & Hc & Hds). rewrite E in Hv |- *.
  assert (Hcd : ascii_digit c = true).
  { unfold ascii_digit. apply andb_true_iff. split; apply N.leb_le; lia. }
  assert (Hlen : length ds < 15).
  { unfold digits_value in Hv. cbn [fold_left] in Hv.
    pose proof (fold_digits_lower ds (10 * 0 + digit_value c)%Z Hds
                  ltac:(unfold digit_value; lia)) as Hlow.
    rewrite Hv in Hlow.
    assert (10 ^ Z.of_nat (length ds) < 10 ^ 15)%Z.
    { assert (0 < 10 ^ Z.of_nat (length ds))%Z by (apply Z.pow_pos_nonneg; lia).
      unfold digit_value in Hlow. nia. }
    apply Z.pow_lt_mono_r_iff in H; lia. }
  unfold unsigned_short. cbn [forallb length]. rewrite Hcd, Hds. cbn [andb].
  rewrite (proj2 (Nat.leb_le 1 (S (length ds)))) by lia.
  rewrite (proj2 (Nat.leb_le (S (length ds)) 15)) by lia.
  cbn [andb]. rewrite Hv. reflexivity.
Qed.

(** Reading back what [str] printed: the decimal form of an integer below
    [10^15] is a short integer literal, and its value is the integer. *)
Lemma short_int_literal_str_of_int (z : Z) :
  (- 10 ^ 15 < z < 10 ^ 15)%Z -> short_int_literal (str_of_int z) = Some z.
Proof.
  intros Hz. destruct z as [|p|p].
  - reflexivity.
  - unfold str_of_int. cbn [Z.to_int].
    pose proof (unsigned_short_pos p ltac:(lia)) as Hu.
    destruct (uint_digits_pos p) as (c & ds & E & Hc & _). rewrite E in Hu |- *.
    unfold short_int_literal.
    rewrite (proj2 (N.eqb_neq c MINUS)) by (unfold MINUS; lia).
    rewrite (proj2 (N.eqb_neq c PLUS)) by (unfold PLUS; lia).
    exact Hu.
  - unfold str_of_int. cbn [Z.to_int]. unfold short_int_literal.
    rewrite N.eqb_refl, (unsigned_short_pos p) by lia. reflexivity.
Qed.

Lemma remove_char_absent (c : char) (s : str) :
  Forall (fun x => x <> c) s -> remove_char c s = s.
Proof.
  unfold remove_char, str. induction 1 as [|x s Hx _ IH]; [reflexivity|].
  rewrite filter_cons_True by exact Hx. rewrite IH. reflexivity.
Qed.

Lemma str_of_int_chars (z : Z) :
  Forall (fun x => x = MINUS \/ ascii_digit x = true) (str_of_int z).
Proof.
  assert (H : forall u, Forall (fun x => x = MINUS \/ ascii_digit x = true) (uint_digits u)).
  { intros u. pose proof (uint_digits_ascii u) as Hu.
    induction (uint_digits u) as [|c ds IH]; [constructor|].
    cbn [forallb] in Hu. apply andb_true_iff in Hu as [Hc Hds].
    constructor; [right; exact Hc | apply IH, Hds]. }
  unfold str_of_int. destruct (Z.to_int z); [apply H|].
  constructor; [left; reflexivity | apply H].
Qed.

Lemma strip_str_of_int (z : Z) : strip (str_of_int z) = str_of_int z.
Proof.
  assert (H : forall c, c <> MINUS -> ascii_digit c = false ->
                        Forall (fun x => x <> c) (str_of_int z)).
  { intros c Hm Hd. eapply Forall_impl; [apply str_of_int_chars|].
    intros x [-> | Hx] Hc; [exact (Hm (eq_sym Hc)) | congruence]. }
  unfold strip. rewrite (remove_char_absent COMMA) by (apply H; [discriminate | reflexivity]).
  apply remove_char_absent, H; [discriminate | reflexivity].
Qed.

Lemma collect_short (ks : list Z) :
  Forall (fun k => - 10 ^ 15 < k < 10 ^ 15)%Z ks ->
  collect ((fun k => IntLit k (Finite k)) <$> ks) = I64 ks.
Proof.
  intros Hks. unfold collect.
  assert (Hf : existsb saw_float ((fun k => IntLit k (Finite k)) <$> ks) = false
               /\ existsb saw_uint ((fun k => IntLit k (Finite k)) <$> ks) = false).
  { induction Hks as [|k ks Hk _ [IH1 IH2]]; [split; reflexivity|].
    cbn [fmap list_fmap existsb]. fold ((fun k => IntLit k (Finite k)) <$> ks).
    rewrite IH1, IH2. cbn [saw_float saw_uint]. unfold INT64_MIN, INT64_MAX, UINT64_MAX.
    split; apply orb_false_iff; (split; [|reflexivity]).
    - apply orb_false_iff. split; apply Z.ltb_ge; lia.
    - apply andb_false_iff. left. apply Z.ltb_ge. lia. }
  destruct Hf as [-> ->]. cbn [orb]. f_equal.
  rewrite <- list_fmap_compose. apply list_fmap_id.
Qed.

(** The dollar coercion returns an integer column below [10^15] as it is:
    printed by [astype(str)], it is read back by [pd.to_numeric]. *)
Lemma dollars_coercion_int64 (ks : list Z) :
  Forall (fun k => - 10 ^ 15 < k < 10 ^ 15)%Z ks ->
  dollars_coercion (ItemSeries (Int64 ks)) = Return (Int64 ks).
Proof.
  intros Hks. unfold dollars_coercion. rewrite strip_punctuation_series.
  cbn [and_then Series_texts]. unfold int64_coercion, to_numeric. cbn [and_then].
  rewrite <- !list_fmap_compose.
  rewrite (list_fmap_ext _ (fun k => IntLit k (Finite k)) ks).
  - rewrite collect_short by exact Hks. reflexivity.
  - intros i k Hk. cbn. rewrite strip_str_of_int.
    apply convert_text_short, short_int_literal_str_of_int.
    eapply Forall_lookup_1 in Hks; [exact Hks | exact Hk].
Qed.

(** X11. A finalized record set is a fixed point of the finalizer.  When
    every [county_fips] holds digits only and every dollar amount is below
    [10^15] in magnitude, [finalize_dataframe] returns a new frame equal to
    the one it was given: the renaming finds nothing to rename, the FIPS
    digits are their own first digit run, and an amount printed by
    [astype(str)] reads back as the same integer. *)
Theorem finalize_dataframe_fixed_point
    (w : world) (df : loc) (filename : str) (rs : list FinalizedRecord) :
  heap w !! df = Some (frame_of_records rs) ->
  Forall (fun r => exists t, rec_county_fips r = Str t
                             /\ Forall (fun c => is_digit c = true) t) rs ->
  Forall (fun r => - 10 ^ 15 < rec_dollars r < 10 ^ 15)%Z rs ->
  exists out w',
    finalize_dataframe df filename w = (Return out, w')
    /\ length (heap w) <= out
    /\ heap w' !! out = Some (frame_of_records rs).
Proof.
  intros Hdf Hfips Hdollars. destruct w as [h lg fs]. cbn [heap] in *.
  assert (Hframe : finalize_frame (frame_of_records rs) = Return (frame_of_records rs)).
  { unfold frame_of_records at 1.
    rewrite (finalize_frame_six _ (Object (rec_year <$> rs)) (Object (rec_county <$> rs))
               (Object (rec_state_name <$> rs)) (Object (rec_county_fips <$> rs))
               (Int64 (rec_dollars <$> rs)) (Int64 (rec_count <$> rs)));
      try reflexivity.
    rewrite dollars_coercion_int64 by (rewrite Forall_fmap; exact Hdollars).
    cbn [and_then int64_coercion to_numeric fillna_zero astype_int64 Series_texts].
    assert (Hf : (fun t => Str (fips_digits t)) <$> (obj_text <$> (rec_county_fips <$> rs))
                 = rec_county_fips <$> rs).
    { rewrite <- !list_fmap_compose. apply list_fmap_ext. intros i r Hr.
      eapply Forall_lookup_1 in Hfips as (t & Ht & Hdig); [|exact Hr].
      cbn. rewrite Ht. cbn [obj_text]. f_equal. apply fips_digits_digits, Hdig. }
    rewrite Hf. unfold frame_of_records, six_columns. cbn [index_len]. reflexivity. }
  destruct (finalize_dataframe_run df filename h lg fs _ Hdf) as (hs & ls & Hrun & Hlast).
  rewrite Hframe in Hrun, Hlast. rewrite Hrun.
  eexists _, _. split; [reflexivity|]. split; [lia|].
  cbn [heap]. rewrite heap_lookup_new, <- Hlast, last_lookup. reflexivity.
Qed.
(** ** The batch driver *)

Lemma main_loop_run final_data_dir csv_files c h lg fs :
  exists hs ls,
    main_loop final_data_dir csv_files c {| heap := h; log := lg; files := fs |} =
      (Return (loop_counters final_data_dir csv_files fs c),
       {| heap := h ++ hs; log := lg ++ ls;
          files := loop_files final_data_dir csv_files fs |}).
Proof.
  revert c h lg fs. induction csv_files as [|p ps IH]; intros c h lg fs.
  - exists [], []. cbn. rewrite !app_nil_r. reflexivity.
  - cbn [main_loop loop_counters loop_files].
    destruct (process_csv_file_run p (path_join final_data_dir (basename p)) h lg fs)
      as (hs & ls & Hrun).
    erewrite bind_return by exact Hrun.
    destruct (IH (tally (process_source (fs !! p)).1 c) (h ++ hs) (lg ++ ls)
                (written (path_join final_data_dir (basename p))
                   (process_source (fs !! p)).2 fs)) as (hs' & ls' & Hrest).
    unfold tally in Hrest at 1. rewrite Hrest.
    exists (hs ++ hs'), (ls ++ ls'). rewrite !app_assoc. reflexivity.
Qed.

Lemma process_source_failure src :
  (process_source src).1.1 = false -> (process_source src).1.2 = 0.
Proof.
  unfold process_source, process_frame.
  destruct src as [text|]; [|reflexivity].
  destruct (read_csv lib text) as [fr|]; [|reflexivity].
  destruct (finalize_frame fr) as [out|]; [|reflexivity].
  destruct (empty out); [reflexivity|].
  destruct (csv_text out).2; [discriminate | reflexivity].
Qed.

Lemma written_other (output_path : str) (text : option str) (fs : gmap str str) (p : str) :
  p <> output_path -> written output_path text fs !! p = fs !! p.
Proof.
  intros H. unfold written. destruct text; [|reflexivity].
  apply lookup_insert_ne. congruence.
Qed.

Lemma path_join_prefix (dir name : str) : (dir ++ [SLASH]) `prefix_of` path_join dir name.
Proof. exists name. unfold path_join. rewrite <- app_assoc. reflexivity. Qed.

(** The loop never touches a path outside the output directory. *)
Lemma loop_files_other (final_data_dir : str) (csv_files : list str) (fs : gmap str str) (p : str) :
  ~ (final_data_dir ++ [SLASH]) `prefix_of` p ->
  loop_files final_data_dir csv_files fs !! p = fs !! p.
Proof.
  intros Hp. revert fs. induction csv_files as [|q qs IH]; intros fs; [reflexivity|].
  cbn [loop_files]. rewrite IH. apply written_other.
  intros ->. apply Hp, path_join_prefix.
Qed.

Lemma loop_alone (final_data_dir : str) (csv_files : list str) (fs0 fs : gmap str str) (c : counters) :
  Forall (fun p => ~ (final_data_dir ++ [SLASH]) `prefix_of` p) csv_files ->
  (forall p, p ∈ csv_files -> fs !! p = fs0 !! p) ->
  loop_files final_data_dir csv_files fs =
    foldl (fun fs p => written (path_join final_data_dir (basename p)) (alone fs0 p).2 fs)
      fs csv_files
  /\ loop_counters final_data_dir csv_files fs c =
       foldl (fun c p => tally (alone fs0 p).1 c) c csv_files.
Proof.
  intros Hin. revert fs c. induction Hin as [|p ps Hp Hps IH]; intros fs c Hsame.
  - split; reflexivity.
  - cbn [loop_files loop_counters foldl].
    rewrite (Hsame p) by apply list_elem_of_here. fold (alone fs0 p).
    apply IH. intros q Hq. rewrite written_other.
    + apply Hsame. apply list_elem_of_further, Hq.
    + intros ->. rewrite Forall_forall in Hps. apply (Hps _ Hq), path_join_prefix.
Qed.

Lemma tally_fold {A} (g : A -> bool * nat) (ps : list A) (c : counters) :
  (forall p, (g p).1 = false -> (g p).2 = 0) ->
  let c' := foldl (fun c p => tally (g p) c) c ps in
  successful_files c' = successful_files c + length (filter (fun p => (g p).1 = true) ps)
  /\ failed_files c' = failed_files c + length (filter (fun p => (g p).1 = false) ps)
  /\ total_finalized_records c'
     = total_finalized_records c + sum_list ((fun p => (g p).2) <$> ps).
Proof.
  intros Hg. revert c. induction ps as [|p ps IH]; intros c; cbv zeta; cbn [foldl].
  - rewrite !filter_nil. cbn. repeat split; lia.
  - specialize (IH (tally (g p) c)). cbv zeta in IH. destruct IH as (Hs & Hf & Ht).
    rewrite Hs, Hf, Ht. rewrite !filter_cons.
    cbn [fmap list_fmap sum_list sum_list_with]. specialize (Hg p).
    unfold tally. destruct (g p) as [[|] n]; cbn [fst snd] in *;
      cbn [successful_files failed_files total_finalized_records].
    + rewrite decide_True by reflexivity. rewrite decide_False by discriminate.
      cbn [length]. unfold id. repeat split; lia.
    + rewrite decide_False by discriminate. rewrite decide_True by reflexivity.
      rewrite (Hg eq_refl). cbn [length]. unfold id. repeat split; lia.
Qed.

Lemma appalachian_not_final (name : str) :
  ~ (py "final_data" ++ [SLASH]) `prefix_of` path_join (py "appalachian_data") name.
Proof. intros [k Hk]. discriminate Hk. Qed.

Lemma main_run (b : batch) :
  let fs0 := files (batch_world b) in
  let csv_files :=
    path_join (py "appalachian_data") <$> glob_csv fs0 (py "appalachian_data") in
  let c := foldl (fun c p => tally (alone fs0 p).1 c)
             {| successful_files := 0; failed_files := 0; total_finalized_records := 0 |}
             csv_files in
  exists hs ls,
    main b =
      (Return tt,
       {| batch_world :=
            {| heap := heap (batch_world b) ++ hs;
               log := log (batch_world b) ++ ls;
               files := foldl (fun fs p =>
                                 written (path_join (py "final_data") (basename p))
                                   (alone fs0 p).2 fs) fs0 csv_files |};
          batch_log :=
            batch_log b ++
            (INFO, CreatedDirectory (py "final_data")) ::
            match csv_files with
            | [] => [(ERROR, NoCsvFilesFound)]
            | _ => [ (INFO, FoundCsvFiles (length csv_files));
                     (INFO, Rule); (INFO, SummaryTitle); (INFO, Rule);
                     (INFO, TotalFilesProcessed (length csv_files));
                     (INFO, SuccessfullyProcessed (successful_files c));
                     (INFO, FailedToProcess (failed_files c));
                     (INFO, TotalFinalizedRecords (total_finalized_records c));
                     (INFO, FilesSavedTo (py "final_data")) ]
            end |}).
Proof.
  cbv zeta. destruct b as [[h lg fs] bl]. unfold main, batch_logger.
  cbn [batch_world batch_log files].
  set (csv_files := path_join (py "appalachian_data") <$> glob_csv fs (py "appalachian_data")).
  assert (Hin : Forall (fun p => ~ (py "final_data" ++ [SLASH]) `prefix_of` p) csv_files).
  { subst csv_files. apply Forall_fmap, Forall_forall. intros name _.
    apply appalachian_not_final. }
  destruct csv_files as [|p ps] eqn:E.
  - rewrite bool_decide_eq_true_2 by reflexivity.
    exists [], []. cbn [batch_world batch_log heap log files foldl]. rewrite !app_nil_r, <- ?app_assoc. reflexivity.
  - rewrite bool_decide_eq_false_2 by discriminate.
    cbn [batch_world batch_log heap log files].
    destruct (main_loop_run (py "final_data") (p :: ps)
                {| successful_files := 0; failed_files := 0; total_finalized_records := 0 |}
                h lg fs) as (hs & ls & Hrun).
    rewrite Hrun.
    destruct (loop_alone (py "final_data") (p :: ps) fs fs
                {| successful_files := 0; failed_files := 0; total_finalized_records := 0 |}
                Hin (fun _ _ => eq_refl)) as [-> ->].
    exists hs, ls. cbn [batch_world batch_log].
    rewrite <- !app_assoc. reflexivity.
Qed.

Lemma foldl_written_other (out : str -> str) (txt : str -> option str)
    (ps : list str) (fs : gmap str str) (q : str) :
  q ∉ out <$> ps ->
  foldl (fun fs p => written (out p) (txt p) fs) fs ps !! q = fs !! q.
Proof.
  revert fs. induction ps as [|p ps IH]; intros fs Hq; [reflexivity|].
  cbn [foldl]. cbn [fmap list_fmap] in Hq. apply not_elem_of_cons in Hq as [Hne Hq].
  rewrite (IH _ Hq). apply written_other, Hne.
Qed.

Lemma foldl_written_lookup (out : str -> str) (txt : str -> option str)
    (ps : list str) (fs : gmap str str) (p : str) :
  NoDup (out <$> ps) -> p ∈ ps ->
  foldl (fun fs q => written (out q) (txt q) fs) fs ps !! out p =
    match txt p with Some t => Some t | None => fs !! out p end.
Proof.
  revert fs. induction ps as [|q qs IH]; intros fs Hnd Hp; [inversion Hp|].
  cbn [fmap list_fmap] in Hnd. apply NoDup_cons in Hnd as [Hq Hnd].
  cbn [foldl]. apply elem_of_cons in Hp as [->|Hp].
  - rewrite (foldl_written_other out txt qs _ (out q) Hq).
    unfold written. destruct (txt q); [apply lookup_insert_eq | reflexivity].
  - rewrite (IH _ Hnd Hp). destruct (txt p); [reflexivity|].
    apply written_other. intros E. apply Hq. rewrite <- E.
    apply list_elem_of_fmap. exists p. split; [reflexivity | exact Hp].
Qed.

Lemma filter_bool_partition {A} (f : A -> bool) (l : list A) :
  length (filter (fun x => f x = true) l) + length (filter (fun x => f x = false) l)
  = length l.
Proof.
  induction l as [|x l IH]; [reflexivity|].
  rewrite !filter_cons. destruct (f x).
  - rewrite decide_True by reflexivity. rewrite decide_False by discriminate.
    cbn [length]. lia.
  - rewrite decide_False by discriminate. rewrite decide_True by reflexivity.
    cbn [length]. lia.
Qed.

Lemma processed_alone_source (w : world) (csv_file : str) :
  processed_alone w csv_file = (alone (files w) csv_file).1.
Proof.
  unfold processed_alone, alone. destruct w as [h lg fs].
  destruct (process_csv_file_run csv_file
              (path_join (py "final_data") (basename csv_file)) h lg fs) as (hs & ls & ->).
  reflexivity.
Qed.

(** X12. [main] never raises, and its summary counts every file exactly
    once: with no CSV file it logs the error and stops; otherwise it
    reports as successful the files whose processing succeeds, as failed
    all the others, and as total the sum of the record counts.  A file that
    fails does not stop the files after it, and what a file gives is what
    it gives when processed alone. *)
Theorem main_summary (b : batch) :
  let w0 := batch_world b in
  let csv_files :=
    path_join (py "appalachian_data") <$> glob_csv (files w0) (py "appalachian_data") in
  let succeeded := filter (fun p => (processed_alone w0 p).1 = true) csv_files in
  let failed := filter (fun p => (processed_alone w0 p).1 = false) csv_files in
  exists b',
    main b = (Return tt, b')
    /\ batch_log b' =
         batch_log b ++
         (INFO, CreatedDirectory (py "final_data")) ::
         match csv_files with
         | [] => [(ERROR, NoCsvFilesFound)]
         | _ => [ (INFO, FoundCsvFiles (length csv_files));
                  (INFO, Rule); (INFO, SummaryTitle); (INFO, Rule);
                  (INFO, TotalFilesProcessed (length csv_files));
                  (INFO, SuccessfullyProcessed (length succeeded));
                  (INFO, FailedToProcess (length failed));
                  (INFO, TotalFinalizedRecords
                           (sum_list ((fun p => (processed_alone w0 p).2) <$> csv_files)));
                  (INFO, FilesSavedTo (py "final_data")) ]
         end
    /\ length succeeded + length failed = length csv_files.
Proof.
  cbv zeta. destruct (main_run b) as (hs & ls & Hrun). cbv zeta in Hrun. rewrite Hrun.
  eexists. split; [reflexivity|]. cbn [batch_log].
  set (w0 := batch_world b) in *.
  set (csv_files := path_join (py "appalachian_data") <$>
                      glob_csv (files w0) (py "appalachian_data")).
  destruct (tally_fold (fun p => (alone (files w0) p).1) csv_files
              {| successful_files := 0; failed_files := 0; total_finalized_records := 0 |})
    as (Hs & Hf & Ht).
  { intros p. apply process_source_failure. }
  cbn [successful_files failed_files total_finalized_records Nat.add] in Hs, Hf, Ht.
  rewrite Hs, Hf, Ht.
  rewrite (list_filter_iff (fun p => (processed_alone w0 p).1 = true)
             (fun p => (alone (files w0) p).1.1 = true))
    by (intros p; rewrite processed_alone_source; reflexivity).
  rewrite (list_filter_iff (fun p => (processed_alone w0 p).1 = false)
             (fun p => (alone (files w0) p).1.1 = false))
    by (intros p; rewrite processed_alone_source; reflexivity).
  rewrite (list_fmap_ext (fun p => (processed_alone w0 p).2)
             (fun p => (alone (files w0) p).1.2) csv_files)
    by (intros i p _; rewrite processed_alone_source; reflexivity).
  split; [reflexivity|].
  apply (filter_bool_partition (fun p => (alone (files w0) p).1.1)).
Qed.

(** X13. After [main], the output file of each CSV file of the input
    directory holds exactly what [process_csv_file] leaves there when that
    file alone is processed in the world [main] started from: the files
    processed before it have no influence.  (The names of a directory's
    entries are distinct.) *)
Theorem main_outputs (b : batch) (name : str) :
  let w0 := batch_world b in
  let names := glob_csv (files w0) (py "appalachian_data") in
  NoDup ((fun n => basename (path_join (py "appalachian_data") n)) <$> names) ->
  name ∈ names ->
  let csv_file := path_join (py "appalachian_data") name in
  let output_file := path_join (py "final_data") (basename csv_file) in
  files (batch_world (main b).2) !! output_file =
    files (process_csv_file csv_file output_file w0).2 !! output_file.
Proof.
  cbv zeta. intros Hnd Hname.
  destruct (main_run b) as (hs & ls & Hrun). cbv zeta in Hrun. rewrite Hrun.
  cbn [snd batch_world files].
  destruct (batch_world b) as [h lg fs]. cbn [files].
  destruct (process_csv_file_run (path_join (py "appalachian_data") name)
              (path_join (py "final_data")
                 (basename (path_join (py "appalachian_data") name))) h lg fs)
    as (hs' & ls' & ->).
  cbn [snd files].
  rewrite (foldl_written_lookup
             (fun p => path_join (py "final_data") (basename p))
             (fun p => (alone fs p).2)).
  - unfold alone, written. destruct (process_source _).2;
      [rewrite lookup_insert_eq|]; reflexivity.
  - rewrite <- list_fmap_compose.
    apply (NoDup_fmap_2_strong (path_join (py "final_data"))) in Hnd.
    + rewrite <- list_fmap_compose in Hnd. exact Hnd.
    + intros x y _ _ E. unfold path_join in E. apply app_inv_head in E.
      injection E as E. exact E.
  - apply list_elem_of_fmap. exists name. split; [reflexivity | exact Hname].
Qed.

(** X14. [main] writes nowhere but in the output directory: every path that
    does not start with [final_data/], each input file among them, holds
    after [main] what it held before. *)
Theorem main_writes_only_final_data (b : batch) (p : str) :
  ~ py "final_data/" `prefix_of` p ->
  files (batch_world (main b).2) !! p = files (batch_world b) !! p.
Proof.
  intros Hp. destruct (main_run b) as (hs & ls & Hrun). cbv zeta in Hrun. rewrite Hrun.
  cbn [snd batch_world files].
  apply (foldl_written_other (fun q => path_join (py "final_data") (basename q))).
  intros Hin. apply list_elem_of_fmap in Hin as (q & -> & _).
  apply Hp. apply (path_join_prefix (py "final_data")).
Qed.

End Finalizer.

(** * The claims at concrete inputs *)

(** C1 at the record of the specification. *)
Lemma write_csv_finalized_records_fulton :
  heap (world_of [frame_of_records [fulton_record]] ∅) !! 0
    = Some (frame_of_records [fulton_record])
  /\ ((exists w',
         write_csv_only_county_fips_quoted example_library 0 (py "final_data/ga.csv")
           (world_of [frame_of_records [fulton_record]] ∅) = (Return tt, w')
         /\ files w' = <[py "final_data/ga.csv" := csv_header ++ concat (csv_line <$> [fulton_record])]> ∅)
      /\ csv_line fulton_record
         = py "2020,Fulton,Georgia," ++ [DQUOTE] ++ py "13121" ++ [DQUOTE]
           ++ py ",500000,3" ++ [LF]).
Proof.
  split; [reflexivity|].
  apply (write_csv_finalized_records example_library [fulton_record]
           (world_of [frame_of_records [fulton_record]] ∅) 0 (py "final_data/ga.csv")).
  reflexivity.
Defined.

(** C2 fails on a frame that has [fiscal_year] next to [year]: all six
    required fields are present after the renaming, and the frame
    [finalize_dataframe] returns has seven columns. *)
Lemma finalize_dataframe_seven_fields :
  filter (fun c => c ∉ labels (rename column_mapping year_twice_frame)) required_columns = []
  /\ exists w',
       finalize_dataframe example_library 0 (py "ga.csv") (world_of [year_twice_frame] ∅)
         = (Return 4, w')
       /\ labels <$> heap w' !! 4
          = Some [ py "year"; py "year"; py "county"; py "state_name"; py "county_fips";
                   py "502_investment_dollars"; py "number_of_502_investment" ]
       /\ labels <$> heap w' !! 4 <> Some required_columns.
Proof.
  split; [reflexivity|].
  eexists. split; [vm_compute; reflexivity|].
  split; [reflexivity | discriminate].
Defined.

(** C2, as amended, at the frame of the filter stage. *)
Lemma finalize_dataframe_six_fields_good :
  exists out w' ds ns,
    finalize_dataframe example_library 0 (py "ga.csv") (world_of [good_frame] ∅)
      = (Return out, w')
    /\ heap w' !! out =
         Some (six_columns 2
                 (Object [Str (py "2020"); Str (py "2021")])
                 (Object [Str (py "Fulton"); Str (py "Bibb")])
                 (Object [Str (py "Georgia"); Str (py "Alabama")])
                 (Object ((fun t => Str (fips_digits example_library t))
                            <$> [py "13121"; py "1007.0"]))
                 (Int64 ds) (Int64 ns))
    /\ labels (six_columns 2
                 (Object [Str (py "2020"); Str (py "2021")])
                 (Object [Str (py "Fulton"); Str (py "Bibb")])
                 (Object [Str (py "Georgia"); Str (py "Alabama")])
                 (Object ((fun t => Str (fips_digits example_library t))
                            <$> [py "13121"; py "1007.0"]))
                 (Int64 ds) (Int64 ns)) = required_columns
    /\ length ds = 2
    /\ length ns = 2.
Proof.
  apply (finalize_dataframe_six_fields example_library (world_of [good_frame] ∅) 0
           (py "ga.csv") good_frame
           (Object [Str (py "2020"); Str (py "2021")])
           (Object [Str (py "Fulton"); Str (py "Bibb")])
           (Object [Str (py "Georgia"); Str (py "Alabama")])
           (Object [Str (py "13121"); Str (py "1007.0")])
           (Object [Str (py "$303,030"); Str (py "unknown")])
           (Object [Str (py "3"); Str (py "twelve")]));
    try reflexivity.
  - repeat constructor; vm_compute; discriminate.
  - repeat constructor; vm_compute; discriminate.
Defined.

Lemma process_missing_columns_no_fips :
  exists w',
    process_csv_file example_library (py "appalachian_data/ga.csv") (py "final_data/ga.csv")
      no_fips_world = (Return (false, 0), w')
    /\ files w' = files no_fips_world
    /\ (ERROR, MissingRequiredColumns (basename (py "appalachian_data/ga.csv"))
                 (filter (fun c => c ∉ labels (rename column_mapping no_fips_frame))
                    required_columns))
       ∈ log w'
    /\ filter (fun c => c ∉ labels (rename column_mapping no_fips_frame)) required_columns
       <> [].
Proof.
  apply (process_missing_columns example_library no_fips_world
           (py "appalachian_data/ga.csv") (py "final_data/ga.csv") no_fips_csv no_fips_frame).
  - reflexivity.
  - reflexivity.
  - exists (py "county_fips").
    split; apply (bool_decide_unpack _); vm_compute; exact I.
Defined.

Lemma process_no_rows_header_only :
  exists w',
    process_csv_file example_library (py "appalachian_data/al.csv") (py "final_data/al.csv")
      no_rows_world = (Return (false, 0), w')
    /\ files w' = files no_rows_world.
Proof.
  apply (process_no_rows example_library no_rows_world
           (py "appalachian_data/al.csv") (py "final_data/al.csv") no_rows_csv no_rows_frame);
    reflexivity.
Defined.

Lemma process_twice_same_output_good :
  let run1 := process_csv_file example_library (py "appalachian_data/ga.csv")
                (py "final_data/ga.csv") good_world in
  let run1' := process_csv_file example_library (py "appalachian_data/ga.csv")
                 (py "final_data/ga.csv") busy_world in
  let run2 := process_csv_file example_library (py "appalachian_data/ga.csv")
                (py "final_data/ga.csv") run1.2 in
  run1.1 = run1'.1
  /\ files run1.2 !! py "final_data/ga.csv" = files run1'.2 !! py "final_data/ga.csv"
  /\ run2.1 = run1.1
  /\ files run2.2 = files run1.2.
Proof.
  apply (process_twice_same_output example_library (py "appalachian_data/ga.csv")
           (py "final_data/ga.csv") good_world busy_world).
  - vm_compute. discriminate.
  - vm_compute. reflexivity.
  - vm_compute. reflexivity.
Defined.

(** C9 at a record whose four text fields are all missing: its line is
    [nan,,,"",0,0]. *)
Lemma write_csv_missing_values_blank :
  heap (world_of [frame_of_records [blank_record]] ∅) !! 0
    = Some (frame_of_records [blank_record])
  /\ exists w' lines,
       write_csv_only_county_fips_quoted example_library 0 (py "out.csv")
         (world_of [frame_of_records [blank_record]] ∅) = (Return tt, w')
       /\ files w' !! py "out.csv" = Some (csv_header ++ concat lines)
       /\ Forall2 (fun r line =>
            line = match rec_year r with NaN => py "nan" | Str s => s end ++ [COMMA]
                   ++ match rec_county r with NaN => [] | Str s => s end ++ [COMMA]
                   ++ match rec_state_name r with NaN => [] | Str s => s end ++ [COMMA]
                   ++ [DQUOTE] ++ match rec_county_fips r with NaN => [] | Str s => s end
                   ++ [DQUOTE] ++ [COMMA]
                   ++ str_of_int (rec_dollars r) ++ [COMMA]
                   ++ str_of_int (rec_count r) ++ [LF]) [blank_record] lines.
Proof.
  split; [reflexivity|].
  apply (write_csv_missing_values example_library [blank_record]
           (world_of [frame_of_records [blank_record]] ∅) 0 (py "out.csv")).
  reflexivity.
Defined.

(** The dollar coercion at the values of the specification. *)
Lemma dollars_coercion_finite_examples :
  (exists ks,
      dollars_coercion example_library
        (ItemSeries (Object [Str (py "$303,030"); Str (py "N/A"); Str []; NaN]))
        = Return (Int64 ks)
      /\ Forall2 (fun t k => text_int64 (strip t) k)
           (Series_texts (Object [Str (py "$303,030"); Str (py "N/A"); Str []; NaN])) ks)
  /\ dollars_coercion example_library
       (ItemSeries (Object [Str (py "$303,030"); Str (py "N/A"); Str []; NaN]))
     = Return (Int64 [303030; 0; 0; 0]%Z).
Proof.
  apply (dollars_coercion_finite example_library
           (Object [Str (py "$303,030"); Str (py "N/A"); Str []; NaN])).
  repeat constructor; vm_compute; discriminate.
Defined.

(** The count coercion at the values of the specification. *)
Lemma count_coercion_finite_examples :
  (exists ks,
      int64_coercion example_library
        (ItemSeries (Object [Str (py "12"); Str (py "twelve"); NaN])) = Return (Int64 ks)
      /\ Forall2 (fun o k => match o with
                             | Str t => text_int64 t k
                             | NaN => k = 0%Z
                             end) [Str (py "12"); Str (py "twelve"); NaN] ks)
  /\ int64_coercion example_library
       (ItemSeries (Object [Str (py "12"); Str (py "twelve"); NaN]))
     = Return (Int64 [12; 0; 0]%Z).
Proof.
  apply (count_coercion_finite example_library [Str (py "12"); Str (py "twelve"); NaN]).
  repeat constructor; vm_compute; discriminate.
Defined.

(** * Further properties at concrete inputs *)

(** X3 at the example file. *)
Lemma process_year_twice_leaves_header_tn :
  exists w',
    process_csv_file example_library (py "appalachian_data/tn.csv") (py "final_data/tn.csv")
      year_twice_world = (Return (false, 0), w')
    /\ files w' = <[py "final_data/tn.csv" := csv_header]> (files year_twice_world).
Proof.
  apply (process_year_twice_leaves_header example_library year_twice_world
           (py "appalachian_data/tn.csv") (py "final_data/tn.csv") year_twice_csv
           year_twice_frame
           (Object [Str (py "Fulton")]) (Object [Str (py "Georgia")])
           (Object [Str (py "13121")]) (Object [Str (py "500000")])
           (Object [Str (py "3")]));
    try reflexivity.
  - cbn. lia.
  - vm_compute. lia.
  - repeat constructor; vm_compute; discriminate.
  - repeat constructor; vm_compute; discriminate.
Defined.

(** X5 at a file the reader refuses. *)
Lemma process_unreadable_input_ky :
  process_csv_file example_library (py "appalachian_data/ky.csv") (py "final_data/ky.csv")
    (batch_world batch_start) =
    (Return (false, 0),
     {| heap := heap (batch_world batch_start);
        log := log (batch_world batch_start) ++
               [ (INFO, Processing (py "appalachian_data/ky.csv"));
                 (ERROR, ErrorProcessing (py "appalachian_data/ky.csv")
                           match files (batch_world batch_start)
                                   !! py "appalachian_data/ky.csv" with
                           | Some _ => ParserError
                           | None => FileNotFoundError
                           end) ];
        files := files (batch_world batch_start) |}).
Proof.
  apply (process_unreadable_input example_library (py "appalachian_data/ky.csv")
           (py "final_data/ky.csv") (batch_world batch_start)).
  vm_compute. reflexivity.
Defined.

(** X6 at the file of the filter stage. *)
Lemma process_csv_file_finalized_good :
  exists rs w',
    process_csv_file example_library (py "appalachian_data/ga.csv") (py "final_data/ga.csv")
      good_world = (Return (true, index_len good_frame), w')
    /\ files w' = <[py "final_data/ga.csv" := csv_header ++ concat (csv_line <$> rs)]>
                    (files good_world)
    /\ length rs = index_len good_frame
    /\ rec_year <$> rs = [Str (py "2020"); Str (py "2021")]
    /\ rec_county <$> rs = [Str (py "Fulton"); Str (py "Bibb")]
    /\ rec_state_name <$> rs = [Str (py "Georgia"); Str (py "Alabama")]
    /\ rec_county_fips <$> rs =
         (fun o => Str (fips_digits example_library (obj_text o)))
           <$> [Str (py "13121"); Str (py "1007.0")]
    /\ Forall2 (fun o k => text_int64 (strip (obj_text o)) k)
         [Str (py "$303,030"); Str (py "unknown")] (rec_dollars <$> rs)
    /\ Forall2 (fun o k => match o with
                           | Str t => text_int64 t k
                           | NaN => k = 0%Z
                           end) [Str (py "3"); Str (py "twelve")] (rec_count <$> rs).
Proof.
  apply (process_csv_file_finalized example_library good_world
           (py "appalachian_data/ga.csv") (py "final_data/ga.csv") good_csv good_frame
           [Str (py "2020"); Str (py "2021")]
           [Str (py "Fulton"); Str (py "Bibb")]
           [Str (py "Georgia"); Str (py "Alabama")]
           [Str (py "13121"); Str (py "1007.0")]
           [Str (py "$303,030"); Str (py "unknown")]
           [Str (py "3"); Str (py "twelve")]);
    try reflexivity.
  - cbn. lia.
  - repeat constructor; vm_compute; discriminate.
  - repeat constructor; vm_compute; discriminate.
Defined.

(** X7 at a file with both dollar columns. *)
Lemma process_repeated_label_nc :
  exists w',
    process_csv_file dollars_twice_library (py "appalachian_data/nc.csv")
      (py "final_data/nc.csv") dollars_twice_world = (Return (false, 0), w')
    /\ files w' = files dollars_twice_world.
Proof.
  apply (process_repeated_label dollars_twice_library dollars_twice_world
           (py "appalachian_data/nc.csv") (py "final_data/nc.csv")
           dollars_twice_csv dollars_twice_frame (py "502_investment_dollars")).
  - reflexivity.
  - reflexivity.
  - apply (bool_decide_unpack _). vm_compute. exact I.
  - vm_compute. lia.
Defined.

(** X9 at a frame without [county_fips]. *)
Lemma write_csv_missing_column_no_fips :
  write_csv_only_county_fips_quoted example_library 0 (py "final_data/ga.csv")
    (world_of [no_fips_frame] ∅) =
    (Raise KeyError,
     {| heap := heap (world_of [no_fips_frame] ∅);
        log := log (world_of [no_fips_frame] ∅);
        files := <[py "final_data/ga.csv" := csv_header]> (files (world_of [no_fips_frame] ∅)) |}).
Proof.
  apply (write_csv_missing_column example_library (world_of [no_fips_frame] ∅) 0
           (py "final_data/ga.csv") no_fips_frame (py "county_fips")).
  - reflexivity.
  - apply (bool_decide_unpack _). vm_compute. exact I.
  - apply (bool_decide_unpack _). vm_compute. exact I.
Defined.

(** X10 at [Fulton,North] in Georgia and Fulton in [North,Georgia]. *)
Lemma write_csv_no_escaping_fulton :
  (write_csv_only_county_fips_quoted example_library 0 (py "out.csv") comma_world).1
    = Return tt
  /\ (write_csv_only_county_fips_quoted example_library 1 (py "out.csv") comma_world).1
     = Return tt
  /\ files (write_csv_only_county_fips_quoted example_library 0 (py "out.csv") comma_world).2
     = files (write_csv_only_county_fips_quoted example_library 1 (py "out.csv") comma_world).2.
Proof.
  apply (write_csv_no_escaping example_library comma_world 0 1 (py "out.csv") [] []
           (Str (py "2020")) (Str (py "13121")) (py "Fulton") (py "North") (py "Georgia")
           500000%Z 3%Z); reflexivity.
Defined.

(** X11 at the record of the specification. *)
Lemma finalize_dataframe_fixed_point_fulton :
  exists out w',
    finalize_dataframe example_library 0 (py "ga.csv")
      (world_of [frame_of_records [fulton_record]] ∅) = (Return out, w')
    /\ length (heap (world_of [frame_of_records [fulton_record]] ∅)) <= out
    /\ heap w' !! out = Some (frame_of_records [fulton_record]).
Proof.
  apply (finalize_dataframe_fixed_point example_library
           (world_of [frame_of_records [fulton_record]] ∅) 0 (py "ga.csv") [fulton_record]).
  - reflexivity.
  - repeat constructor. exists (py "13121"). split; [reflexivity|].
    repeat constructor.
  - repeat constructor; vm_compute; reflexivity.
Defined.

(** X13 and X14 at a directory of three CSV files. *)
Lemma main_outputs_ga :
  let w0 := batch_world batch_start in
  let csv_file := path_join (py "appalachian_data") (py "ga.csv") in
  let output_file := path_join (py "final_data") (basename csv_file) in
  files (batch_world (main example_library example_glob batch_start).2) !! output_file =
    files (process_csv_file example_library csv_file output_file w0).2 !! output_file.
Proof.
  apply (main_outputs example_library example_glob batch_start (py "ga.csv")).
  - apply (bool_decide_unpack _). vm_compute. exact I.
  - apply (bool_decide_unpack _). vm_compute. exact I.
Defined.

Lemma main_writes_only_final_data_ga :
  files (batch_world (main example_library example_glob batch_start).2)
    !! py "appalachian_data/ga.csv" =
  files (batch_world batch_start) !! py "appalachian_data/ga.csv".
Proof.
  apply (main_writes_only_final_data example_library example_glob batch_start).
  intros [k Hk]. discriminate Hk.
Defined.
